(** * The query, filter and aggregation core of the ChartAnalyzer page

    A shallow embedding of the functions [convertToGridData],
    [aggregateDataForChart], [applyFilters], [parseBasicQuery] and
    [analyzeSearchQuery] of the ChartAnalyzer component, with the
    properties its specification states about them.

    Conventions.
    - A JavaScript number is an IEEE 754 binary64 value: Rocq's primitive
      [float], with its own [add], [sub], [div], [ltb], [leb], [is_nan].
    - A JavaScript string is a [string]; the concrete string functions
      ([toLowerCase], [trim], the regular expressions) are written for
      ASCII text.
    - A [GridRow] is a plain JavaScript object used as a map from column
      names to cells: a [gmap string jsvalue] holds its own properties.
      Reading a key it has no property for gives the member of that name of
      [Object.prototype], and [undefined] when there is none; an assignment
      to the key [__proto__] reaches the setter of [Object.prototype] and
      stores nothing.  The [Map] of the aggregator keeps its insertion order
      and is a list of entries; [Array.prototype.sort] is the stable
      insertion sort.
    - An exception is a value: an operation that may throw returns a
      [completion], and one whose loops might not end returns an [option].
    - The parts of ECMAScript whose definition is large or left to the
      engine (parsing a string as a number or as a date, printing a number,
      collation) form the interface [ECMAScript]; the theorems hold for
      every instance of it. *)

From Stdlib Require Import ZArith String Ascii List Bool Lia.
From Stdlib Require Import Sorting.Permutation Sorting.Sorted.
From Stdlib Require Import Strings.String Numbers.DecimalString.
From Stdlib Require Import Numbers.DecimalPos Numbers.DecimalN.
From Stdlib Require Import Floats.PrimFloat Floats.SpecFloat Floats.FloatOps.
From Stdlib Require Import Numbers.Cyclic.Int63.Uint63.
From stdpp Require Import base gmap strings.
Import ListNotations.

Local Open Scope string_scope.
Local Open Scope list_scope.

(** ** JavaScript strings *)

Module JSString.

Definition code (c : ascii) : nat := nat_of_ascii c.

Definition isUpper (c : ascii) : bool :=
  (65 <=? code c)%nat && (code c <=? 90)%nat.

Definition isLower (c : ascii) : bool :=
  (97 <=? code c)%nat && (code c <=? 122)%nat.

(** [\d] *)
Definition isDigit (c : ascii) : bool :=
  (48 <=? code c)%nat && (code c <=? 57)%nat.

(** [\w]: letters, digits and the underscore. *)
Definition isWord (c : ascii) : bool :=
  isUpper c || isLower c || isDigit c || (code c =? 95)%nat.

(** [\s] and the characters [trim] strips: tab, line feed, vertical tab,
    form feed, carriage return and space. *)
Definition isSpace (c : ascii) : bool :=
  ((9 <=? code c)%nat && (code c <=? 13)%nat) || (code c =? 32)%nat.

Definition lowerChar (c : ascii) : ascii :=
  if isUpper c then ascii_of_nat (code c + 32) else c.

Fixpoint toLowerCase (s : string) : string :=
  match s with
  | EmptyString => EmptyString
  | String c s' => String (lowerChar c) (toLowerCase s')
  end.

(** [s.includes(sub)] *)
Fixpoint includes (s sub : string) : bool :=
  if String.prefix sub s then true
  else match s with
       | EmptyString => false
       | String _ s' => includes s' sub
       end.

Fixpoint trimStart (s : string) : string :=
  match s with
  | String c s' => if isSpace c then trimStart s' else s
  | EmptyString => EmptyString
  end.

Fixpoint trimEnd (s : string) : string :=
  match s with
  | EmptyString => EmptyString
  | String c s' =>
      match trimEnd s' with
      | EmptyString => if isSpace c then EmptyString else String c EmptyString
      | t => String c t
      end
  end.

Definition trim (s : string) : string := trimEnd (trimStart s).

(** [s.substring(i, j)] for [i <= j]. *)
Definition substring (i j : nat) (s : string) : string :=
  String.substring i (j - i) s.

(** The decimal digits of a natural number, as a template literal prints
    an array length or an integral time stamp. *)
Definition ofN (n : N) : string := NilZero.string_of_uint (N.to_uint n).
Definition ofNat (n : nat) : string := ofN (N.of_nat n).

End JSString.

(** ** JavaScript values *)

(** The primitive values a table holds in its cells, and the page assigns
    to the properties of the objects it builds. *)
Inductive primitive : Type :=
| PUndefined
| PNull
| PStr (s : string)
| PNum (x : float).

(** What reading a property gives: a primitive value, or an object.  The
    objects a row can give are the members of [Object.prototype] (built-in
    functions, and [Object.prototype] itself under [__proto__]): objects
    with the [valueOf] of [Object.prototype], which the page only converts;
    [text] is what [toString()] returns for the object. *)
Inductive jsvalue : Type :=
| VUndefined
| VNull
| VStr (s : string)
| VNum (x : float)
| VObject (text : string).

(** A primitive as a value. *)
Definition ofPrimitive (p : primitive) : jsvalue :=
  match p with
  | PUndefined => VUndefined
  | PNull => VNull
  | PStr s => VStr s
  | PNum x => VNum x
  end.

(** The operations of the standard library that the page calls and that
    ECMAScript defines at length or leaves to the engine. *)
Class ECMAScript : Type := {
  (** [Number(s)] for a string [s] (StringToNumber). *)
  StringToNumber : string -> float;
  (** [String(x)] and [x.toString()] for a number [x]. *)
  NumberToString : float -> string;
  (** [new Date(v).getTime()]: the time value, [NaN] for an invalid date. *)
  DateTimeValue : jsvalue -> float;
  (** [a.localeCompare(b)]: negative, zero or positive. *)
  localeCompare : string -> string -> float;
  (** The message of the [TypeError] raised by reading the named property
      of [null] or [undefined]. *)
  TypeErrorMessage : string -> string;
  (** [String(f)] for the built-in function [f] that is the member of the
      given name of [Object.prototype]: the text is left to the engine. *)
  FunctionToString : string -> string
}.

(** The number of an array length or of a counter kept by [+= 1]; exact
    below [2^53], which bounds every array length. *)
Definition numOfNat (n : nat) : float :=
  PrimFloat.of_uint63 (Uint63.of_Z (Z.of_nat n)).

Definition isNaN (x : float) : bool := PrimFloat.is_nan x.

(** Truthiness of a number: neither zero nor [NaN]. *)
Definition truthyNum (x : float) : bool :=
  negb (PrimFloat.eqb x PrimFloat.zero || isNaN x).

Definition nonEmpty (s : string) : bool :=
  match s with EmptyString => false | String _ _ => true end.

Definition truthy (v : jsvalue) : bool :=
  match v with
  | VUndefined | VNull => false
  | VStr s => nonEmpty s
  | VNum x => truthyNum x
  | VObject _ => true
  end.

Section Conversions.
Context `{E : ECMAScript}.

(** [Number(v)]; an object is converted to a primitive first: its
    [valueOf()] returns the object itself, so its [toString()] is used. *)
Definition Number (v : jsvalue) : float :=
  match v with
  | VUndefined => PrimFloat.nan
  | VNull => PrimFloat.zero
  | VStr s => StringToNumber s
  | VNum x => x
  | VObject text => StringToNumber text
  end.

(** [String(v)] *)
Definition ToString (v : jsvalue) : string :=
  match v with
  | VUndefined => "undefined"
  | VNull => "null"
  | VStr s => s
  | VNum x => NumberToString x
  | VObject text => text
  end.

End Conversions.

(** ** Exceptions *)

(** What a [throw] carries: an [Error] object with its message, or a value
    that is not an [Error]. *)
Inductive thrown : Type :=
| ErrorObject (message : string)
| NotAnError.

(** How an evaluation completes: normally with a value, or by a [throw]. *)
Definition completion (A : Type) : Type := (thrown + A)%type.

Definition ret {A} (a : A) : completion A := inr a.
Definition throw {A} (e : thrown) : completion A := inl e.
Definition bind {A B} (m : completion A) (k : A -> completion B) : completion B :=
  match m with
  | inl e => inl e
  | inr a => k a
  end.

Notation "'let*' x ':=' m 'in' k" := (bind m (fun x => k))
  (at level 10, x name, m at level 100, k at level 200).

(** ** Data of the page *)

Record ExcelData : Type := {
  headers : list string;
  rows : list (list primitive)
}.

Record FilterCondition : Type := {
  id : string;
  column : string;
  (** One of the six names by its TypeScript type; any string at run time. *)
  operator : string;
  value : string
}.

(** ** Plain objects *)

(** The names of the function members of [Object.prototype]; its one other
    member is the accessor [__proto__]. *)
Definition prototypeFunctions : list string :=
  [ "constructor"; "hasOwnProperty"; "isPrototypeOf"; "propertyIsEnumerable";
    "toLocaleString"; "toString"; "valueOf";
    "__defineGetter__"; "__defineSetter__"; "__lookupGetter__";
    "__lookupSetter__" ].

(** The key names a member of [Object.prototype]. *)
Definition prototypeMember (key : string) : bool :=
  String.eqb key "__proto__" || existsb (String.eqb key) prototypeFunctions.

Section PlainObjects.
Context `{E : ECMAScript}.

(** What an object created by [{}] gives for a key it has no property of
    its own for: the getter of [__proto__] returns [Object.prototype],
    whose [toString()] is [[object Object]]. *)
Definition inherited (key : string) : jsvalue :=
  if String.eqb key "__proto__" then VObject "[object Object]"
  else if existsb (String.eqb key) prototypeFunctions
       then VObject (FunctionToString key)
       else VUndefined.

(** [row[key]] *)
Definition getCell (row : gmap string jsvalue) (key : string) : jsvalue :=
  default (inherited key) (row !! key).

End PlainObjects.

(** [obj[key] = v] for a primitive [v], on an object created by [{}] and
    filled by such assignments only.  The key [__proto__] finds the accessor
    of [Object.prototype], whose setter makes no property; it changes the
    prototype for [null] alone, which no later read of the page observes. *)
Definition setProperty (key : string) (v : primitive)
    (obj : gmap string jsvalue) : gmap string jsvalue :=
  if String.eqb key "__proto__" then obj else <[ key := ofPrimitive v ]> obj.

(** [a || b] *)
Definition orElse (a b : jsvalue) : jsvalue := if truthy a then a else b.

(** [a || b] on the cells of a table *)
Definition cellOrElse (a b : primitive) : primitive :=
  if truthy (ofPrimitive a) then a else b.

(** [array[index]] *)
Definition getIndex (row : list primitive) (index : nat) : primitive :=
  nth index row PUndefined.

(** [convertToGridData]: every row becomes an object keyed by the headers;
    a missing or falsy cell becomes the empty string. *)
Definition convertRow (hs : list string) (row : list primitive)
  : gmap string jsvalue :=
  fold_left
    (fun (rowObj : gmap string jsvalue) (hi : string * nat) =>
       setProperty (fst hi) (cellOrElse (getIndex row (snd hi)) (PStr "")) rowObj)
    (combine hs (seq 0 (length hs)))
    ∅.

Definition convertToGridData (data : ExcelData) : list (gmap string jsvalue) :=
  map (convertRow (headers data)) (rows data).

(** ** The filter engine: [applyFilters] *)

Section FilterEngine.
Context `{E : ECMAScript}.

(** [cellValue.toString()]; the receiver is neither [null] nor
    [undefined] where the filter loop calls it. *)
Definition cellToString (cellValue : jsvalue) : string := ToString cellValue.

(** The numeric-then-date cascade shared by the four ordered operators;
    [cmp] is the comparison of the two numbers or of the two time
    values. *)
Definition compareCascade (cmp : float -> float -> bool)
    (cellValue : jsvalue) (filterValue : string) : bool :=
  let cellNum := Number cellValue in
  let filterNum := Number (VStr filterValue) in
  if negb (isNaN cellNum) && negb (isNaN filterNum) then cmp cellNum filterNum
  else
    let cellDate := DateTimeValue cellValue in
    let filterDate := DateTimeValue (VStr filterValue) in
    if negb (isNaN cellDate) && negb (isNaN filterDate)
    then cmp cellDate filterDate
    else false.

(** [a > b], [a < b], [a >= b], [a <= b] on numbers. *)
Definition greaterThan (a b : float) : bool := PrimFloat.ltb b a.
Definition lessThan (a b : float) : bool := PrimFloat.ltb a b.
Definition greaterOrEqual (a b : float) : bool := PrimFloat.leb b a.
Definition lessOrEqual (a b : float) : bool := PrimFloat.leb a b.

(** The callback of [result.filter] for one filter: the guard on a
    missing cell, then the [switch] on the operator. *)
Definition filterRow (filter : FilterCondition) (row : gmap string jsvalue)
  : bool :=
  let cellValue := getCell row (column filter) in
  let filterValue := value filter in
  match cellValue with
  | VUndefined | VNull => false
  | _ =>
      if String.eqb (operator filter) "equals" then
        String.eqb (JSString.toLowerCase (cellToString cellValue))
                   (JSString.toLowerCase filterValue)
      else if String.eqb (operator filter) "contains" then
        JSString.includes (JSString.toLowerCase (cellToString cellValue))
                          (JSString.toLowerCase filterValue)
      else if String.eqb (operator filter) "greater" then
        compareCascade greaterThan cellValue filterValue
      else if String.eqb (operator filter) "less" then
        compareCascade lessThan cellValue filterValue
      else if String.eqb (operator filter) "greaterEqual" then
        compareCascade greaterOrEqual cellValue filterValue
      else if String.eqb (operator filter) "lessEqual" then
        compareCascade lessOrEqual cellValue filterValue
      else true
  end.

(** [filtersToApply.forEach(filter => result = result.filter(...))] *)
Definition applyAdvancedFilters (data : list (gmap string jsvalue))
    (filtersToApply : list FilterCondition) : list (gmap string jsvalue) :=
  fold_left (fun result filter => List.filter (filterRow filter) result)
            filtersToApply data.

(** [cell.toString()] in the text search, which guards nothing: reading
    [toString] of [null] or [undefined] raises a [TypeError]. *)
Definition toStringMethod (cell : jsvalue) : completion string :=
  match cell with
  | VUndefined | VNull => throw (ErrorObject (TypeErrorMessage "toString"))
  | _ => ret (ToString cell)
  end.

(** [cells.some(cell => cell.toString().toLowerCase().includes(needle))] *)
Fixpoint someCellIncludes (needle : string) (cells : list jsvalue)
  : completion bool :=
  match cells with
  | [] => ret false
  | cell :: cells' =>
      let* s := toStringMethod cell in
      if JSString.includes (JSString.toLowerCase s) needle then ret true
      else someCellIncludes needle cells'
  end.

(** [Object.values(row)], in the enumeration order of the map. *)
Definition objectValues (row : gmap string jsvalue) : list jsvalue :=
  map snd (map_to_list row).

(** [result.filter(row => Object.values(row).some(...))] *)
Fixpoint textSearch (needle : string) (data : list (gmap string jsvalue))
  : completion (list (gmap string jsvalue)) :=
  match data with
  | [] => ret []
  | row :: data' =>
      let* keep := someCellIncludes needle (objectValues row) in
      let* rest := textSearch needle data' in
      ret (if keep then row :: rest else rest)
  end.

(** [applyFilters(data, customFilters?)].  [filters] is the filter list of
    the component state and [inputValue] the content of the search box:
    without [customFilters] the state's filters apply, after the text
    search when the box is not blank. *)
Definition applyFilters (filters : list FilterCondition) (inputValue : string)
    (data : list (gmap string jsvalue))
    (customFilters : option (list FilterCondition))
  : completion (list (gmap string jsvalue)) :=
  let filtersToApply := default filters customFilters in
  let* result :=
    match customFilters with
    | None =>
        if nonEmpty (JSString.trim inputValue)
        then textSearch (JSString.toLowerCase (JSString.trim inputValue)) data
        else ret data
    | Some _ => ret data
    end in
  ret (applyAdvancedFilters result filtersToApply).

End FilterEngine.

(** ** The aggregator: [aggregateDataForChart] *)

(** The value type of the [Map] called [aggregated]. *)
Record entry : Type := {
  sum : float;
  (** Kept by [entry.count += 1]: a natural number. *)
  count : nat;
  values : list jsvalue
}.

(** A [Map<string, entry>]: the entries in insertion order, keys distinct. *)
Module JSMap.

Definition has (m : list (string * entry)) (k : string) : bool :=
  existsb (fun p => String.eqb (fst p) k) m.

Fixpoint get (m : list (string * entry)) (k : string) : option entry :=
  match m with
  | [] => None
  | (k', e) :: m' => if String.eqb k' k then Some e else get m' k
  end.

(** [m.set(k, e)]: a present key keeps its place, a new one goes last. *)
Fixpoint set (m : list (string * entry)) (k : string) (e : entry)
  : list (string * entry) :=
  match m with
  | [] => [(k, e)]
  | (k', e') :: m' =>
      if String.eqb k' k then (k, e) :: m' else (k', e') :: set m' k e
  end.

End JSMap.

(** [array.sort(compare)]: ECMAScript asks for a stable sort, which fixes
    the outcome whenever [compare] is a consistent comparator, and leaves the
    order to the engine otherwise.  The model is the stable insertion sort:
    each element moves left past the elements it compares negative with. *)
Module JSArray.

Definition negative (x : float) : bool := PrimFloat.ltb x PrimFloat.zero.

(** [sortedRev] holds the elements placed so far, last one first. *)
Fixpoint insert {A} (compare : A -> A -> float) (x : A) (sortedRev : list A)
  : list A :=
  match sortedRev with
  | [] => [x]
  | p :: ps =>
      if negative (compare x p) then p :: insert compare x ps
      else x :: sortedRev
  end.

Definition sort {A} (compare : A -> A -> float) (l : list A) : list A :=
  rev (fold_left (fun sortedRev x => insert compare x sortedRev) l []).

End JSArray.

Section Aggregator.
Context `{E : ECMAScript}.

Definition emptyEntry : entry := {| sum := PrimFloat.zero; count := 0; values := [] |}.

(** The body of [data.forEach(row => ...)]. *)
Definition accumulate (xAxis yAxis : string)
    (aggregated : list (string * entry)) (row : gmap string jsvalue)
  : list (string * entry) :=
  let xValue := ToString (orElse (getCell row xAxis) (VStr "")) in
  let yValue := getCell row yAxis in
  let aggregated :=
    if JSMap.has aggregated xValue then aggregated
    else JSMap.set aggregated xValue emptyEntry in
  let entry := default emptyEntry (JSMap.get aggregated xValue) in
  let numValue := Number yValue in
  let entry :=
    if negb (isNaN numValue)
    then {| sum := PrimFloat.add (sum entry) numValue;
            count := count entry + 1;
            values := values entry |}
    else entry in
  let entry :=
    {| sum := sum entry; count := count entry;
       values := values entry ++ [yValue] |} in
  (* [entry] is the object held by the map: the updates are in place. *)
  JSMap.set aggregated xValue entry.

(** The callback of [.map(([xValue, entry]) => ...)]. *)
Definition toChartRow (xAxis yAxis : string) (xe : string * entry)
  : gmap string jsvalue :=
  let xValue := fst xe in
  let entry := snd xe in
  let result : gmap string jsvalue := setProperty xAxis (PStr xValue) ∅ in
  if (0 <? count entry)%nat then
    let result := setProperty yAxis (PNum (sum entry)) result in
    let result :=
      setProperty (yAxis +:+ "_count") (PNum (numOfNat (count entry))) result in
    setProperty (yAxis +:+ "_avg")
      (PNum (PrimFloat.div (sum entry) (numOfNat (count entry)))) result
  else
    setProperty yAxis (PNum (numOfNat (length (values entry)))) result.

(** The comparator of [.sort((a, b) => ...)]. *)
Definition compareRows (xAxis : string) (a b : gmap string jsvalue) : float :=
  let aVal := getCell a xAxis in
  let bVal := getCell b xAxis in
  let aNum := Number aVal in
  let bNum := Number bVal in
  if negb (isNaN aNum) && negb (isNaN bNum) then PrimFloat.sub aNum bNum
  else localeCompare (ToString aVal) (ToString bVal).

(** [aggregateDataForChart(data, xAxis, yAxis)]; [data] is an array at
    every call site. *)
Definition aggregateDataForChart (data : list (gmap string jsvalue))
    (xAxis yAxis : string) : list (gmap string jsvalue) :=
  if (length data =? 0)%nat || negb (nonEmpty xAxis) || negb (nonEmpty yAxis)
  then data
  else
    JSArray.sort (compareRows xAxis)
      (map (toChartRow xAxis yAxis)
           (fold_left (accumulate xAxis yAxis) data [])).

End Aggregator.

(** ** Regular expressions

    The fragment of ECMAScript regular expressions that the six templates of
    [parseBasicQuery] use: a sequence of character classes under the greedy
    quantifiers [*], [+] and [?], with capture groups, matched by
    backtracking in the order of the ECMAScript semantics. *)

Module Regex.

Inductive node : Type :=
| Class (p : ascii -> bool)
| Star (p : ascii -> bool)
| Plus (p : ascii -> bool)
| Opt (p : ascii -> bool)
| Open (g : nat)
| Close (g : nat).

(** Group number, start and end index of the captured text. *)
Definition captures : Type := list (nat * (nat * nat)).

Fixpoint close (g : nat) (pos : nat) (c : captures) : captures :=
  match c with
  | [] => []
  | (g', (start, e)) :: c' =>
      if (g' =? g)%nat then (g', (start, pos)) :: c'
      else (g', (start, e)) :: close g pos c'
  end.

Fixpoint group (g : nat) (c : captures) : option (nat * nat) :=
  match c with
  | [] => None
  | (g', r) :: c' => if (g' =? g)%nat then Some r else group g c'
  end.

(** A continuation: the rest of the pattern, run on the rest of the input
    ([s] is the input from index [pos] on). *)
Definition cont : Type := string -> nat -> captures -> option (nat * captures).

(** Greedy [p*] followed by [k]: the longest run first, then shorter. *)
Fixpoint star (p : ascii -> bool) (k : cont) (s : string) (pos : nat)
    (c : captures) : option (nat * captures) :=
  match s with
  | String a s' =>
      if p a then
        match star p k s' (S pos) c with
        | Some r => Some r
        | None => k s pos c
        end
      else k s pos c
  | EmptyString => k s pos c
  end.

Fixpoint run (pat : list node) : cont :=
  match pat with
  | [] => fun _ pos c => Some (pos, c)
  | n :: pat' =>
      let k := run pat' in
      match n with
      | Class p => fun s pos c =>
          match s with
          | String a s' => if p a then k s' (S pos) c else None
          | EmptyString => None
          end
      | Star p => star p k
      | Plus p => fun s pos c =>
          match s with
          | String a s' => if p a then star p k s' (S pos) c else None
          | EmptyString => None
          end
      | Opt p => fun s pos c =>
          match s with
          | String a s' =>
              if p a then
                match k s' (S pos) c with
                | Some r => Some r
                | None => k s pos c
                end
              else k s pos c
          | EmptyString => k s pos c
          end
      | Open g => fun s pos c => k s pos ((g, (pos, pos)) :: c)
      | Close g => fun s pos c => k s pos (close g pos c)
      end
  end.

(** The leftmost match at or after [pos]: start, end and captures. *)
Fixpoint search (pat : list node) (s : string) (pos : nat)
  : option (nat * nat * captures) :=
  match run pat s pos [] with
  | Some (e, c) => Some (pos, e, c)
  | None =>
      match s with
      | EmptyString => None
      | String _ s' => search pat s' (S pos)
      end
  end.

Fixpoint drop (n : nat) (s : string) : string :=
  match n, s with
  | S n', String _ s' => drop n' s'
  | _, _ => s
  end.

(** [regex.exec(str)] for a regular expression with the [g] flag whose
    [lastIndex] is at most the length of [str]. *)
Definition exec (pat : list node) (str : string) (lastIndex : nat)
  : option (nat * nat * captures) :=
  search pat (drop lastIndex str) lastIndex.

Definition groupText (str : string) (g : nat) (c : captures) : string :=
  match group g c with
  | Some (start, e) => JSString.substring start e str
  | None => EmptyString
  end.

(** [while ((match = regex.exec(str)) !== null) ...]: the first two groups
    of the successive matches.  A match that is empty leaves [lastIndex]
    where it is, and the loop then never ends: [None]. *)
Fixpoint execLoop (fuel : nat) (pat : list node) (str : string)
    (lastIndex : nat) : option (list (string * string)) :=
  match fuel with
  | O => None
  | S fuel' =>
      match exec pat str lastIndex with
      | None => Some []
      | Some (start, e, c) =>
          if (e <=? start)%nat then None
          else
            match execLoop fuel' pat str e with
            | Some ms => Some ((groupText str 1 c, groupText str 2 c) :: ms)
            | None => None
            end
      end
  end.

(** Every round of the loop moves [lastIndex] forward, so the length of
    the input plus one bounds the rounds. *)
Definition execAll (pat : list node) (str : string)
  : option (list (string * string)) :=
  execLoop (S (String.length str)) pat str 0.

Definition lit (ch : ascii) : node := Class (Ascii.eqb ch).
Definition word : ascii -> bool := JSString.isWord.
Definition digit : ascii -> bool := JSString.isDigit.
Definition space : ascii -> bool := JSString.isSpace.
(** [[^,\s]] *)
Definition notCommaSpace (a : ascii) : bool :=
  negb (Ascii.eqb a ","%char || JSString.isSpace a).

End Regex.

(** ** The fallback pattern matcher: [parseBasicQuery] *)

Module Patterns.
Import Regex.

(** /(\w+)\s*>\s*(\d+)/g *)
Definition greater : list node :=
  [Open 1; Plus word; Close 1; Star space; lit ">"; Star space;
   Open 2; Plus digit; Close 2].

(** /(\w+)\s*<\s*(\d+)/g *)
Definition less : list node :=
  [Open 1; Plus word; Close 1; Star space; lit "<"; Star space;
   Open 2; Plus digit; Close 2].

(** /(\w+)\s*>=\s*(\d+)/g *)
Definition greaterEqual : list node :=
  [Open 1; Plus word; Close 1; Star space; lit ">"; lit "="; Star space;
   Open 2; Plus digit; Close 2].

(** /(\w+)\s*<=\s*(\d+)/g *)
Definition lessEqual : list node :=
  [Open 1; Plus word; Close 1; Star space; lit "<"; lit "="; Star space;
   Open 2; Plus digit; Close 2].

(** /(\w+)\s*=\s*([^,\s]+)/g *)
Definition equals : list node :=
  [Open 1; Plus word; Close 1; Star space; lit "="; Star space;
   Open 2; Plus notCommaSpace; Close 2].

(** /(\w+)\s+contains?\s+([^,\s]+)/g *)
Definition contains : list node :=
  [Open 1; Plus word; Close 1; Plus space;
   lit "c"; lit "o"; lit "n"; lit "t"; lit "a"; lit "i"; lit "n";
   Opt (Ascii.eqb "s"); Plus space;
   Open 2; Plus notCommaSpace; Close 2].

Definition patterns : list (list node * string) :=
  [ (greater, "greater"); (less, "less");
    (greaterEqual, "greaterEqual"); (lessEqual, "lessEqual");
    (equals, "equals"); (contains, "contains") ].

End Patterns.

Section PatternMatcher.

(** The loaded table of the component state ([null] before an upload) and
    the clock: [now n] is what [Date.now()] returns when the filter at
    position [n] of the result is made. *)
Variable excelData : option ExcelData.
Variable now : nat -> N.

(** [excelData?.headers.find(header => ...)] *)
Definition findColumn (columnName : string) : option string :=
  match excelData with
  | None => None
  | Some d =>
      List.find
        (fun header =>
           JSString.includes (JSString.toLowerCase header) columnName
           || JSString.includes columnName (JSString.toLowerCase header))
        (headers d)
  end.

(** The body of the [while] loop for one match. *)
Definition pushMatch (operator : string) (filters : list FilterCondition)
    (m : string * string) : list FilterCondition :=
  let columnName := fst m in
  let value := snd m in
  match findColumn columnName with
  | Some matchingColumn =>
      if nonEmpty matchingColumn then
        filters ++
          [ {| id := "basic_filter_" +:+ JSString.ofN (now (length filters))
                     +:+ "_" +:+ JSString.ofNat (length filters);
               column := matchingColumn;
               operator := operator;
               value := JSString.trim value |} ]
      else filters
  | None => filters
  end.

(** [patterns.forEach(({ regex, operator }) => { while ... })]; [None]
    when one of the loops does not end. *)
Fixpoint forEachPattern (pats : list (list Regex.node * string))
    (lowerQuery : string) (filters : list FilterCondition)
  : option (list FilterCondition) :=
  match pats with
  | [] => Some filters
  | (regex, operator) :: pats' =>
      match Regex.execAll regex lowerQuery with
      | None => None
      | Some ms =>
          forEachPattern pats' lowerQuery
            (fold_left (pushMatch operator) ms filters)
      end
  end.

Definition parseBasicQuery (query : string) : option (list FilterCondition) :=
  let lowerQuery := JSString.toLowerCase query in
  forEachPattern Patterns.patterns lowerQuery [].

End PatternMatcher.

(** ** Values parsed from JSON *)

Set Warnings "-register-all".

Inductive json : Type :=
| JNull
| JBool (b : bool)
| JNum (x : float)
| JStr (s : string)
| JArr (elements : list json)
| JObj (fields : list (string * json)).

Module JSObject.

(** The own property [name] of a parsed object, [None] for [undefined]. *)
Fixpoint lookup (fields : list (string * json)) (name : string) : option json :=
  match fields with
  | [] => None
  | (k, v) :: fields' => if String.eqb k name then Some v else lookup fields' name
  end.

(** [obj[name] = v]: a present key keeps its place, a new one goes last. *)
Fixpoint assign (fields : list (string * json)) (name : string) (v : json)
  : list (string * json) :=
  match fields with
  | [] => [(name, v)]
  | (k, v') :: fields' =>
      if String.eqb k name then (k, v) :: fields'
      else (k, v') :: assign fields' name v
  end.

End JSObject.

(** Truthiness of the result of a property read. *)
Definition truthyJ (v : option json) : bool :=
  match v with
  | None | Some JNull => false
  | Some (JBool b) => b
  | Some (JNum x) => truthyNum x
  | Some (JStr s) => nonEmpty s
  | Some (JArr _) | Some (JObj _) => true
  end.

Section JsonOps.
Context `{E : ECMAScript}.

(** [j.name] for one of the names the page reads ([success], [data],
    [error], [interpretation], [filters], [column], [operator], [value]):
    an own property of an object, [undefined] on an array or a primitive,
    a [TypeError] on [null]. *)
Definition getProp (j : json) (name : string) : completion (option json) :=
  match j with
  | JNull => throw (ErrorObject (TypeErrorMessage name))
  | JObj fields => ret (JSObject.lookup fields name)
  | _ => ret None
  end.

(** [String(j)], as [new Error(j)] computes its message. *)
Fixpoint jsonToString (j : json) : string :=
  match j with
  | JNull => "null"
  | JBool true => "true"
  | JBool false => "false"
  | JNum x => NumberToString x
  | JStr s => s
  | JObj _ => "[object Object]"
  | JArr elements =>
      (fix join (l : list json) : string :=
         match l with
         | [] => EmptyString
         | j' :: l' =>
             let s := match j' with JNull => EmptyString | _ => jsonToString j' end in
             match l' with
             | [] => s
             | _ :: _ => s +:+ "," +:+ join l'
             end
         end) elements
  end.

End JsonOps.

(** ** The query interpreter: [analyzeSearchQuery] *)

(** The body of the request sent to the analysis service. *)
Record Request : Type := {
  req_query : string;
  available_columns : list string;
  sample_data : list (gmap string jsvalue);
  provider : string;
  model : string;
  profile : option json
}.

(** What [fetch] resolves to, as far as the page reads it; [text] and
    [jsonBody] are the outcomes of [response.text()] and
    [response.json()]. *)
Record Response : Type := {
  ok : bool;
  status : nat;
  text : completion string;
  jsonBody : completion json
}.

Record AIAnalysisResult : Type := {
  query : string;
  interpretation : json;
  filters : list json;
  success : bool;
  error : option string
}.

(** A [FilterCondition] as the object it is at run time. *)
Definition filterObject (f : FilterCondition) : json :=
  JObj [ ("id", JStr (id f)); ("column", JStr (column f));
         ("operator", JStr (operator f)); ("value", JStr (value f)) ].

(** [error instanceof Error ? error.message : fallback] *)
Definition messageOr (e : thrown) (fallback : string) : string :=
  match e with
  | ErrorObject message => message
  | NotAnError => fallback
  end.

Section QueryInterpreter.
Context `{E : ECMAScript}.

(** Component state, and the environment: [fetch request] is the outcome
    of building the URL and awaiting [fetch] ([inl] when that throws or
    rejects), [now] the clock: [now n] is the reading of [Date.now()] that
    stamps the filter of index [n] of the result, a filter of the service
    in the [try] block, one of [parseBasicQuery] in the fallback (the stamps
    of a [try] block that throws are discarded with its filters).  The
    awaited promises ([fetch], [response.text()], [response.json()]) are
    taken to settle. *)
Variable excelData : option ExcelData.
Variable selectedProvider selectedModel : string.
Variable selectedProfile : option json.
Variable fetch : Request -> completion Response.
Variable now : nat -> N.

(** [excelData.rows.slice(0, 2).map(row => ...)] *)
Definition sampleRow (hs : list string) (row : list primitive)
  : gmap string jsvalue :=
  fold_left
    (fun (obj : gmap string jsvalue) (hi : string * nat) =>
       setProperty (fst hi) (getIndex row (snd hi)) obj)
    (combine hs (seq 0 (length hs)))
    ∅.

Definition sampleData (d : ExcelData) : list (gmap string jsvalue) :=
  map (sampleRow (headers d)) (firstn 2 (rows d)).

(** The callback of [analysisResult.filters.map((filter, index) => ...)].
    Only an object passes the test, so the spread copies its fields. *)
Definition withId (filter : json) (index : nat) : completion json :=
  let* column := getProp filter "column" in
  let* operator := getProp filter "operator" in
  let* value := getProp filter "value" in
  if negb (truthyJ column) || negb (truthyJ operator)
     || match value with None => true | Some _ => false end
  then throw (ErrorObject ("Invalid filter structure at index "
                           +:+ JSString.ofNat index))
  else
    let fields := match filter with JObj fs => fs | _ => [] end in
    ret (JObj (JSObject.assign fields "id"
                 (JStr ("ai_filter_" +:+ JSString.ofN (now index)
                        +:+ "_" +:+ JSString.ofNat index)))).

Fixpoint mapWithId (filters : list json) (index : nat) : completion (list json) :=
  match filters with
  | [] => ret []
  | filter :: filters' =>
      let* f := withId filter index in
      let* fs := mapWithId filters' (S index) in
      ret (f :: fs)
  end.

(** [throw new Error(result.error || "Analysis failed")] *)
Definition analysisFailed {A} (result : json) : completion A :=
  let* error := getProp result "error" in
  throw (ErrorObject
           (match error with
            | Some e => if truthyJ error then jsonToString e
                        else "Analysis failed"
            | None => "Analysis failed"
            end)).

(** The [try] block. *)
Definition tryBlock (d : ExcelData) (query : string) : completion AIAnalysisResult :=
  let request :=
    {| req_query := query;
       available_columns := headers d;
       sample_data := sampleData d;
       provider := selectedProvider;
       model := selectedModel;
       profile := selectedProfile |} in
  let* response :=
    match fetch request with
    | inl fetchError =>
        throw (ErrorObject ("Network error: "
                            +:+ messageOr fetchError "Unknown network error"))
    | inr response => ret response
    end in
  let* _ :=
    if negb (ok response) then
      let errorText :=
        match text response with
        | inr t => t
        | inl _ => "Unable to read error response"
        end in
      throw (ErrorObject ("API Error: " +:+ JSString.ofNat (status response)
                          +:+ " - "
                          +:+ (if nonEmpty errorText then errorText
                               else "Server error")))
    else ret tt in
  let* result := jsonBody response in
  let* success := getProp result "success" in
  let* data := if truthyJ success then getProp result "data" else ret None in
  let* analysisResult :=
    match data with
    | Some analysisResult =>
        if truthyJ data then ret analysisResult else analysisFailed result
    | None => analysisFailed result
    end in
  let* _ :=
    match analysisResult with
    | JArr _ | JObj _ => ret tt
    | _ => throw (ErrorObject "Analysis response is not a valid object")
    end in
  let* interpretation0 := getProp analysisResult "interpretation" in
  let interpretation :=
    match interpretation0 with
    | Some i => if truthyJ interpretation0 then i else JStr "AI analysis completed"
    | None => JStr "AI analysis completed"
    end in
  let* filters0 := getProp analysisResult "filters" in
  let filters1 :=
    match filters0 with
    | Some f => if truthyJ filters0 then f else JArr []
    | None => JArr []
    end in
  let filters2 :=
    match filters1 with
    | JArr elements => elements
    | _ => []
    end in
  let* filtersWithIds := mapWithId filters2 0 in
  ret {| query := query;
         interpretation := interpretation;
         filters := filtersWithIds;
         success := true;
         error := None |}.

(** The [catch] block; [None] when [parseBasicQuery] does not return. *)
Definition catchBlock (query : string) (error : thrown)
  : option (completion AIAnalysisResult) :=
  match parseBasicQuery excelData now query with
  | None => None
  | Some basicFilters =>
      if (0 <? length basicFilters)%nat then
        Some (ret {| query := query;
                     interpretation :=
                       JStr ("Using basic pattern matching: Found "
                             +:+ JSString.ofNat (length basicFilters)
                             +:+ " filter(s). AI service unavailable.");
                     filters := map filterObject basicFilters;
                     success := true;
                     error := None |})
      else
        Some (ret {| query := query;
                     interpretation :=
                       JStr "AI service unavailable. Try basic patterns like 'column > value', 'column contains text', or 'column = value'.";
                     filters := [];
                     success := false;
                     error := Some (messageOr error "Unknown error") |})
  end.

(** [analyzeSearchQuery(query)]: [Some (inr r)] when the promise resolves
    to [r], [Some (inl e)] when it rejects with [e], [None] when it never
    settles. *)
Definition analyzeSearchQuery (query : string)
  : option (completion AIAnalysisResult) :=
  match excelData with
  | None => Some (throw (ErrorObject "No data available for analysis"))
  | Some d =>
      match tryBlock d query with
      | inr r => Some (ret r)
      | inl error => catchBlock query error
      end
  end.

End QueryInterpreter.

(** ** A reference instance of the ECMAScript interface

    An executable instance for the examples.  It agrees with ECMAScript on
    - [Number(s)] for blank strings, [Infinity], and decimal literals with an
      optional sign and an optional fraction, no exponent, whose digits form
      an integer below [2^53] (below [2^63] without a fraction) and whose
      fraction has at most 18 digits; and on every string that is no numeric
      literal, which gives [NaN];
    - [String(x)] for [NaN], the infinities, and the integers below [2^53];
    - [new Date(s)] for the valid ISO calendar dates [YYYY-MM-DD], and
      [new Date(x)] for an integral number [x];
    - [localeCompare] for texts of digits and lower-case letters, where every
      collation orders by code point;
    - the message of a [TypeError] and the text of a built-in function as V8
      gives them.
    Exponents, the [0x], [0o] and [0b] forms, longer digit strings,
    non-integral printing and other date formats are outside it. *)

Module Reference.

Fixpoint digitsToZ (acc : Z) (s : string) : option Z :=
  match s with
  | EmptyString => Some acc
  | String c s' =>
      if JSString.isDigit c
      then digitsToZ (10 * acc + Z.of_nat (JSString.code c - 48)) s'
      else None
  end.

(** The text before and after the first [.]. *)
Fixpoint splitDot (s : string) : string * option string :=
  match s with
  | EmptyString => (EmptyString, None)
  | String c s' =>
      if Ascii.eqb c "."%char then (EmptyString, Some s')
      else let (a, b) := splitDot s' in (String c a, b)
  end.

Definition floatOfZ (z : Z) : float := PrimFloat.of_uint63 (Uint63.of_Z z).

Definition unsignedLiteral (s : string) : float :=
  if String.eqb s "Infinity" then PrimFloat.infinity
  else
    let (whole, frac) := splitDot s in
    let fracDigits := default EmptyString frac in
    let k := String.length fracDigits in
    if (String.length whole + k =? 0)%nat then PrimFloat.nan
    else
      match digitsToZ 0 (whole +:+ fracDigits) with
      | None => PrimFloat.nan
      | Some m =>
          if (k =? 0)%nat then
            if (m <? 2 ^ 63)%Z then floatOfZ m else PrimFloat.nan
          else if (m <? 2 ^ 53)%Z && (k <=? 18)%nat
               then PrimFloat.div (floatOfZ m) (floatOfZ (10 ^ Z.of_nat k))
               else PrimFloat.nan
      end.

Definition stringToNumber (s : string) : float :=
  match JSString.trim s with
  | EmptyString => PrimFloat.zero
  | String c t =>
      if Ascii.eqb c "-"%char then PrimFloat.opp (unsignedLiteral t)
      else if Ascii.eqb c "+"%char then unsignedLiteral t
      else unsignedLiteral (String c t)
  end.

(** The integer a finite float is equal to, if any. *)
Definition integerOf (x : float) : option Z :=
  match Prim2SF x with
  | S754_zero _ => Some 0%Z
  | S754_finite negative m e =>
      let sign := if negative then (-1)%Z else 1%Z in
      if (0 <=? e)%Z then Some (sign * (Z.pos m * 2 ^ e))%Z
      else if (Z.pos m mod 2 ^ (- e) =? 0)%Z
           then Some (sign * (Z.pos m / 2 ^ (- e)))%Z
           else None
  | _ => None
  end.

Definition numberToString (x : float) : string :=
  if PrimFloat.is_nan x then "NaN"
  else if PrimFloat.eqb x PrimFloat.infinity then "Infinity"
  else if PrimFloat.eqb x PrimFloat.neg_infinity then "-Infinity"
  else
    match integerOf x with
    | Some z =>
        if (z <? 0)%Z then "-" +:+ JSString.ofN (Z.to_N (- z))
        else JSString.ofN (Z.to_N z)
    | None => "NaN"
    end.

(** Days from 1970-01-01 to the civil date [y]-[m]-[d]. *)
Definition daysFromCivil (y m d : Z) : Z :=
  let y := (if m <=? 2 then y - 1 else y)%Z in
  let era := (y / 400)%Z in
  let yoe := (y - era * 400)%Z in
  let mp := ((m + 9) mod 12)%Z in
  let doy := ((153 * mp + 2) / 5 + d - 1)%Z in
  let doe := (yoe * 365 + yoe / 4 - yoe / 100 + doy)%Z in
  (era * 146097 + doe - 719468)%Z.

Definition isoDate (s : string) : float :=
  if (String.length s =? 10)%nat
     && String.eqb (String.substring 4 1 s) "-"
     && String.eqb (String.substring 7 1 s) "-"
  then
    match digitsToZ 0 (String.substring 0 4 s),
          digitsToZ 0 (String.substring 5 2 s),
          digitsToZ 0 (String.substring 8 2 s) with
    | Some y, Some m, Some d =>
        if ((1 <=? m) && (m <=? 12) && (1 <=? d) && (d <=? 31))%Z
        then
          let ms := (daysFromCivil y m d * 86400000)%Z in
          if (ms <? 0)%Z then PrimFloat.opp (floatOfZ (- ms)) else floatOfZ ms
        else PrimFloat.nan
    | _, _, _ => PrimFloat.nan
    end
  else PrimFloat.nan.

Definition dateTimeValue (v : jsvalue) : float :=
  match v with
  | VUndefined => PrimFloat.nan
  | VNull => PrimFloat.zero
  | VStr s => isoDate s
  | VNum x =>
      match integerOf x with
      | Some z => if (Z.abs z <=? 8640000000000000)%Z then x else PrimFloat.nan
      | None => PrimFloat.nan
      end
  | VObject text => isoDate text
  end.

Fixpoint compareCodes (a b : string) : comparison :=
  match a, b with
  | EmptyString, EmptyString => Eq
  | EmptyString, String _ _ => Lt
  | String _ _, EmptyString => Gt
  | String x a', String y b' =>
      match Nat.compare (JSString.code x) (JSString.code y) with
      | Eq => compareCodes a' b'
      | o => o
      end
  end.

Definition localeCompareCodes (a b : string) : float :=
  match compareCodes a b with
  | Lt => PrimFloat.opp PrimFloat.one
  | Eq => PrimFloat.zero
  | Gt => PrimFloat.one
  end.

Definition typeErrorMessage (name : string) : string :=
  "Cannot read properties of null (reading '" +:+ name +:+ "')".

(** The text V8 gives for a built-in function; the member [constructor]
    is the function [Object]. *)
Definition functionToString (name : string) : string :=
  "function " +:+ (if String.eqb name "constructor" then "Object" else name)
  +:+ "() { [native code] }".

Definition ES : ECMAScript :=
  {| StringToNumber := stringToNumber;
     NumberToString := numberToString;
     DateTimeValue := dateTimeValue;
     localeCompare := localeCompareCodes;
     TypeErrorMessage := typeErrorMessage;
     FunctionToString := functionToString |}.

End Reference.


(** ** The search and filter handlers of the page *)

Section Handlers.
Context `{E : ECMAScript}.

(** [handleSearch]: what it passes to [setFilteredData], or the exception
    that escapes it. *)
Definition handleSearch (excelData : option ExcelData)
    (filters : list FilterCondition) (inputValue : string)
  : completion (list (gmap string jsvalue)) :=
  match excelData with
  | None => ret []
  | Some d => applyFilters filters inputValue (convertToGridData d) None
  end.

(** [handleApplyFilters(filtersToApply)]: the new [filteredData], [None]
    when the handler returns at once for want of a table. *)
Definition handleApplyFilters (excelData : option ExcelData)
    (filters : list FilterCondition) (inputValue : string)
    (filtersToApply : list FilterCondition)
  : option (completion (list (gmap string jsvalue))) :=
  match excelData with
  | None => None
  | Some d =>
      Some (applyFilters filters inputValue (convertToGridData d)
                         (Some filtersToApply))
  end.

End Handlers.

(** [handleAcceptAISuggestion(filter)]: the suggestions that stay. *)
Definition handleAcceptAISuggestion (filter : FilterCondition)
    (prev : list FilterCondition) : list FilterCondition :=
  List.filter
    (fun f => negb (String.eqb (column f) (column filter)
                    && String.eqb (operator f) (operator filter)
                    && String.eqb (value f) (value filter)))
    prev.

(** ** The filter list of the FilterManager component *)

(** [keyof FilterCondition] *)
Inductive filterField : Type :=
| FieldId
| FieldColumn
| FieldOperator
| FieldValue.

(** [{ ...filter, [field]: value }] *)
Definition withField (filter : FilterCondition) (field : filterField)
    (v : string) : FilterCondition :=
  match field with
  | FieldId =>
      {| id := v; column := column filter; operator := operator filter;
         value := value filter |}
  | FieldColumn =>
      {| id := id filter; column := v; operator := operator filter;
         value := value filter |}
  | FieldOperator =>
      {| id := id filter; column := column filter; operator := v;
         value := value filter |}
  | FieldValue =>
      {| id := id filter; column := column filter; operator := operator filter;
         value := v |}
  end.

(** Each function returns what it passes to [onFiltersChange]: the new
    filter list of the page ([handleFiltersChange] stores it as it is).
    [now] is the reading of [Date.now()]. *)
Module FilterManager.

(** [addNewFilter]; without columns it changes nothing. *)
Definition addNewFilter (availableColumns : list string) (now : N)
    (filters : list FilterCondition) : list FilterCondition :=
  match availableColumns with
  | [] => filters
  | first :: _ =>
      filters ++ [ {| id := "filter_" +:+ JSString.ofN now; column := first;
                      operator := "equals"; value := "" |} ]
  end.

Definition updateFilter (filterId : string) (field : filterField) (v : string)
    (filters : list FilterCondition) : list FilterCondition :=
  map (fun filter =>
         if String.eqb (id filter) filterId then withField filter field v
         else filter)
      filters.

Definition removeFilter (filterId : string) (filters : list FilterCondition)
  : list FilterCondition :=
  List.filter (fun filter => negb (String.eqb (id filter) filterId)) filters.

(** [acceptAISuggestion(suggestedFilter)]: the new filter list, and the
    suggestions left once [onAcceptAISuggestion], which the page binds to
    [handleAcceptAISuggestion], has run. *)
Definition acceptAISuggestion (now : N) (suggestedFilter : FilterCondition)
    (filters aiSuggestedFilters : list FilterCondition)
  : list FilterCondition * list FilterCondition :=
  let newFilter :=
    withField suggestedFilter FieldId ("ai_filter_" +:+ JSString.ofN now) in
  (filters ++ [newFilter], handleAcceptAISuggestion newFilter aiSuggestedFilters).

End FilterManager.

(** ** The chart component: [processedData] of SimpleChart *)

Module ChartView.

Record point : Type := { x : jsvalue; y : float }.

(** What SimpleChart shows: nothing to draw, no numeric data, or a chart of
    the processed points. *)
Inductive view : Type :=
| NoDataAvailable
| NoValidNumericData
| Chart (points : list point).

Section Views.
Context `{E : ECMAScript}.

(** [n || 0] on numbers *)
Definition orZero (n : float) : float :=
  if truthyNum n then n else PrimFloat.zero.

(** [data.map(item => ({ x: item[xAxis], y: Number(item[yAxis]) || 0 }))
         .filter(item => !isNaN(item.y))] *)
Definition processedData (data : list (gmap string jsvalue))
    (xAxis yAxis : string) : list point :=
  List.filter (fun item => negb (isNaN (y item)))
    (map (fun item => {| x := getCell item xAxis;
                         y := orZero (Number (getCell item yAxis)) |})
         data).

Definition SimpleChart (data : list (gmap string jsvalue))
    (xAxis yAxis : string) : view :=
  if (length data =? 0)%nat || negb (nonEmpty xAxis) || negb (nonEmpty yAxis)
  then NoDataAvailable
  else
    match processedData data xAxis yAxis with
    | [] => NoValidNumericData
    | points => Chart points
    end.

End Views.

End ChartView.

(** ** The export to CSV: [exportToCSV] *)

Module CSV.

(** The double quote character. *)
Definition quote : ascii := ascii_of_nat 34.

Definition quoteString : string := String quote EmptyString.

(** [value.replace] of every double quote by two of them. *)
Fixpoint doubleQuotes (s : string) : string :=
  match s with
  | EmptyString => EmptyString
  | String c s' =>
      if Ascii.eqb c quote then String quote (String quote (doubleQuotes s'))
      else String c (doubleQuotes s')
  end.

(** The text of a string cell in its line. *)
Definition field (s : string) : string :=
  if JSString.includes s "," || JSString.includes s quoteString
  then quoteString +:+ doubleQuotes s +:+ quoteString
  else s.

(** [array.join(sep)] on texts. *)
Fixpoint join (sep : string) (l : list string) : string :=
  match l with
  | [] => EmptyString
  | [a] => a
  | a :: l' => a +:+ sep +:+ join sep l'
  end.

End CSV.

(** ** The upload: the table [handleFileUpload] builds *)

(** A cell as the spreadsheet reader hands it over. *)
Inductive sheetCell : Type :=
| SNull
| SUndefined
| SStr (s : string)
| SNum (n : float)
| SBool (b : bool)
| SDate (time : float).

Section Upload.
Context `{E : ECMAScript}.

(** [String(date)] and [date.toLocaleDateString("en-US")] for the date of a
    time value. *)
Variable DateToString : float -> string.
Variable toLocaleDateString : float -> string.

(** [String(cell)] *)
Definition sheetCellToString (cell : sheetCell) : string :=
  match cell with
  | SNull => "null"
  | SUndefined => "undefined"
  | SStr s => s
  | SNum n => NumberToString n
  | SBool true => "true"
  | SBool false => "false"
  | SDate time => DateToString time
  end.

(** The callback of [(jsonData[0] as any[]).map(header => ...)]. *)
Definition headerText (header : sheetCell) : string :=
  match header with
  | SNull | SUndefined => EmptyString
  | _ => JSString.trim (sheetCellToString header)
  end.

(** The cell is neither [null], nor [undefined], nor the empty string. *)
Definition hasContent (cell : sheetCell) : bool :=
  match cell with
  | SNull | SUndefined => false
  | SStr s => nonEmpty s
  | _ => true
  end.

(** The callback of [row.map(cell => ...)]. *)
Definition cellText (cell : sheetCell) : string :=
  match cell with
  | SNull | SUndefined => EmptyString
  | SDate time => toLocaleDateString time
  | _ => JSString.trim (sheetCellToString cell)
  end.

(** From [jsonData], the rows of the first sheet (each an array), to the
    table passed to [setExcelData]; an empty sheet makes the [try] block
    throw. *)
Definition readTable (jsonData : list (list sheetCell)) : completion ExcelData :=
  match jsonData with
  | [] => throw (ErrorObject "Excel file is empty")
  | first :: rest =>
      ret {| headers := map headerText first;
             rows := map (map (fun cell => PStr (cellText cell)))
                         (List.filter (existsb hasContent) rest) |}
  end.

End Upload.


(** ** Example data *)

Module Examples.

(** A row whose cells are the given strings. *)
Definition rowOf (cells : list (string * string)) : gmap string jsvalue :=
  list_to_map (map (fun kv => (fst kv, VStr (snd kv))) cells).

Definition condition (column operator value : string) : FilterCondition :=
  {| id := "filter_0"; column := column; operator := operator; value := value |}.

(** A table with the columns [name] and [age]; the second row has an empty
    [name] cell. *)
Definition people : list (gmap string jsvalue) :=
  [ rowOf [("name", "john smith"); ("age", "30")];
    rowOf [("name", ""); ("age", "25")];
    rowOf [("name", "Ann"); ("age", "40")] ].

Definition emptyName : gmap string jsvalue := rowOf [("name", ""); ("age", "25")].

(** The uploaded table [people] comes from: the second row has no name. *)
Definition peopleTable : ExcelData :=
  {| headers := ["name"; "age"];
     rows := [ [PStr "john smith"; PStr "30"];
               [PStr ""; PStr "25"];
               [PStr "Ann"; PStr "40"] ] |}.

(** The rows of the aggregation example of the specification. *)
Definition categories : list (gmap string jsvalue) :=
  [ rowOf [("category", "10")]; rowOf [("category", "2")];
    rowOf [("category", "bravo")]; rowOf [("category", "alpha")] ].

(** Three keys the comparator orders in a cycle: [2] before [10] as
    numbers, [10] before [1a] and [1a] before [2] as texts. *)
Definition rooms : list (gmap string jsvalue) :=
  [ rowOf [("category", "2")]; rowOf [("category", "10")];
    rowOf [("category", "1a")] ].

(** Sales by region; two [amount] cells are not numbers. *)
Definition sales : list (gmap string jsvalue) :=
  [ rowOf [("region", "east"); ("amount", "10")];
    rowOf [("region", "west"); ("amount", "n/a")];
    rowOf [("region", "east"); ("amount", "2.5")];
    rowOf [("region", "east"); ("amount", "pending")] ].

(** The table and the service of the examples of [analyzeSearchQuery]. *)
Definition salesTable : ExcelData :=
  {| headers := ["sales"; "status"];
     rows := [ [PStr "20000"; PStr "active"]; [PStr "100"; PStr "closed"] ] |}.

Definition unreachable (request : Request) : completion Response :=
  throw (ErrorObject "Failed to fetch").

(** A service that answers every request with the given filters. *)
Definition answering (elements : list json) (request : Request)
  : completion Response :=
  ret {| ok := true; status := 200; text := ret EmptyString;
         jsonBody :=
           ret (JObj [ ("success", JBool true);
                       ("data", JObj [ ("interpretation", JStr "Sales above 15000");
                                       ("filters", JArr elements) ]) ]) |}.

(** A filter as the service sends it, with an id of its own, and one
    without a column. *)
Definition serviceFilter : json :=
  JObj [ ("id", JStr "f1"); ("column", JStr "sales");
         ("operator", JStr "greater"); ("value", JStr "15000") ].

Definition brokenFilter : json :=
  JObj [ ("operator", JStr "equals"); ("value", JStr "active") ].

End Examples.


(** ** Reference notions for the properties *)

(** The names [switch (filter.operator)] has a case for. *)
Definition recognizedOperators : list string :=
  ["equals"; "contains"; "greater"; "less"; "greaterEqual"; "lessEqual"].

(** The comparison an ordered operator stands for, on two numbers or on two
    time values: [c > v], [c < v], [c >= v], [c <= v]. *)
Definition orderedComparison (op : string) (c v : float) : bool :=
  if String.eqb op "greater" then PrimFloat.ltb v c
  else if String.eqb op "less" then PrimFloat.ltb c v
  else if String.eqb op "greaterEqual" then PrimFloat.leb v c
  else PrimFloat.leb c v.

Definition orderedOperators : list string :=
  ["greater"; "less"; "greaterEqual"; "lessEqual"].

(** [a] may stand before [b] in an array sorted by [compare]: the comparator
    does not put [b] strictly before [a]. *)
Definition mayPrecede {A} (compare : A -> A -> float) (a b : A) : Prop :=
  JSArray.negative (compare b a) = false.

Section AggregatorNotions.
Context `{E : ECMAScript}.

(** The key a row is grouped under: [String(row[xAxis] || "")]. *)
Definition groupKey (xAxis : string) (row : gmap string jsvalue) : string :=
  ToString (orElse (getCell row xAxis) (VStr "")).

(** The rows of a group, in the order of the data. *)
Definition groupRows (xAxis : string) (data : list (gmap string jsvalue))
    (k : string) : list (gmap string jsvalue) :=
  List.filter (fun row => String.eqb (groupKey xAxis row) k) data.

(** The [yAxis] cells of a group that coerce to a number, coerced. *)
Definition numericCells (yAxis : string) (g : list (gmap string jsvalue))
  : list float :=
  List.filter (fun n => negb (isNaN n))
              (map (fun row => Number (getCell row yAxis)) g).

(** The sum of some numbers, added from zero in their order. *)
Definition total (nums : list float) : float :=
  fold_left PrimFloat.add nums PrimFloat.zero.

(** What the map should hold for the key [k] once the rows [data] are in. *)
Definition entryOf (xAxis yAxis : string) (data : list (gmap string jsvalue))
    (k : string) : entry :=
  let g := groupRows xAxis data k in
  {| sum := total (numericCells yAxis g);
     count := length (numericCells yAxis g);
     values := map (fun row => getCell row yAxis) g |}.

(** What one row does to the entry of its group. *)
Definition bump (yAxis : string) (row : gmap string jsvalue) (e : entry) : entry :=
  let numValue := Number (getCell row yAxis) in
  {| sum := if negb (isNaN numValue) then PrimFloat.add (sum e) numValue else sum e;
     count := if negb (isNaN numValue) then count e + 1 else count e;
     values := values e ++ [getCell row yAxis] |}.

(** The map [m] holds the groups of the rows [p]. *)
Definition holds (xAxis yAxis : string) (m : list (string * entry))
    (p : list (gmap string jsvalue)) : Prop :=
  List.NoDup (map fst m)
  /\ (forall k, In k (map fst m) <-> In k (map (groupKey xAxis) p))
  /\ (forall k, default emptyEntry (JSMap.get m k) = entryOf xAxis yAxis p k).

(** The order the comparator of the chart rows puts on two group keys:
    numeric when both parse as numbers, by [localeCompare] otherwise. *)
Definition compareKeys (a b : string) : float :=
  let aNum := StringToNumber a in
  let bNum := StringToNumber b in
  if negb (isNaN aNum) && negb (isNaN bNum) then PrimFloat.sub aNum bNum
  else localeCompare a b.

(** [a] may stand before [b]: the comparator does not put [b] strictly
    before [a]. *)
Definition keyBefore (a b : string) : Prop :=
  JSArray.negative (compareKeys b a) = false.

Definition keyBeforeb (a b : string) : bool :=
  negb (JSArray.negative (compareKeys b a)).

(** The comparator is consistent on a list of keys: never negative both
    ways, and [keyBefore] is transitive. *)
Definition consistentOn (keys : list string) : bool :=
  forallb (fun a =>
    forallb (fun b =>
      implb (JSArray.negative (compareKeys a b)) (keyBeforeb a b)
      && forallb (fun c =>
           implb (keyBeforeb a b && keyBeforeb b c) (keyBeforeb a c)) keys)
      keys) keys.

End AggregatorNotions.

(** Every character of [s] is in the class [p]. *)
Fixpoint allChars (p : ascii -> bool) (s : string) : bool :=
  match s with
  | EmptyString => true
  | String a s' => p a && allChars p s'
  end.

(** A continuation ends no earlier than it starts and within its input. *)
Definition bounded (k : Regex.cont) : Prop :=
  forall s pos c e c', k s pos c = Some (e, c') ->
    (pos <= e)%nat /\ (e <= pos + String.length s)%nat.

(** A continuation consumes at least one character. *)
Definition consuming (k : Regex.cont) : Prop :=
  forall s pos c e c', k s pos c = Some (e, c') -> (pos < e)%nat.

(** What the consumers of an interpretation expect of a filter: an object
    with a string [id], a truthy [column] and [operator], and a [value]. *)
Definition wellFormedFilter (j : json) : Prop :=
  exists fields,
    j = JObj fields
    /\ (exists s, JSObject.lookup fields "id" = Some (JStr s))
    /\ truthyJ (JSObject.lookup fields "column") = true
    /\ truthyJ (JSObject.lookup fields "operator") = true
    /\ JSObject.lookup fields "value" <> None.

(** What [parseBasicQuery] pushes: a filter on a named column with one of
    the six operators. *)
Definition goodFilter (f : FilterCondition) : Prop :=
  nonEmpty (column f) = true /\ In (operator f) recognizedOperators.

(** A template of [parseBasicQuery]: its matches are never empty, and its
    operator is one of the six. *)
Definition goodPattern (po : list Regex.node * string) : Prop :=
  consuming (Regex.run (fst po)) /\ In (snd po) recognizedOperators.

(** Refuting that a short list of keys is sorted. *)
Ltac invert_sorted :=
  repeat match goal with
         | H : StronglySorted _ (_ :: _) |- _ => inversion H; clear H; subst
         | H : Forall _ (_ :: _) |- _ => inversion H; clear H; subst
         end.

Ltac refute_sorted :=
  let H := fresh in
  intros H; invert_sorted;
  match goal with
  | K : keyBefore _ _ |- _ => solve [vm_compute in K; discriminate K]
  end.


(** ** Notions for the further properties *)

(** The loop of [convertToGridData] over the headers still to come. *)
Definition fillRow (row : list primitive) (his : list (string * nat))
    (rowObj : gmap string jsvalue) : gmap string jsvalue :=
  fold_left
    (fun (rowObj : gmap string jsvalue) (hi : string * nat) =>
       setProperty (fst hi) (cellOrElse (getIndex row (snd hi)) (PStr "")) rowObj)
    his rowObj.

(** The test of the callback that stamps the filters of the service: an
    object with a truthy [column] and [operator] and a [value]. *)
Definition validElement (j : json) : bool :=
  match j with
  | JObj fields =>
      truthyJ (JSObject.lookup fields "column")
      && truthyJ (JSObject.lookup fields "operator")
      && match JSObject.lookup fields "value" with
         | Some _ => true
         | None => false
         end
  | _ => false
  end.

(** [{ ...filter, id: ... }] for the filter at [index], stamped at the time
    [time]. *)
Definition stamped (time : N) (index : nat) (filter : json) : json :=
  match filter with
  | JObj fields =>
      JObj (JSObject.assign fields "id"
              (JStr ("ai_filter_" +:+ JSString.ofN time +:+ "_"
                     +:+ JSString.ofNat index)))
  | _ => filter
  end.

Fixpoint stampFrom (now : nat -> N) (index : nat) (filters : list json)
  : list json :=
  match filters with
  | [] => []
  | filter :: filters' =>
      stamped (now index) index filter :: stampFrom now (S index) filters'
  end.

(** The filter at each position carries the id made from the clock reading
    and the position. *)
Definition indexedIds (now : nat -> N) (filters : list FilterCondition) : Prop :=
  forall i f,
    nth_error filters i = Some f ->
    id f = "basic_filter_" +:+ JSString.ofN (now i) +:+ "_" +:+ JSString.ofNat i.

(** A filter names a column of the table and one of the six operators. *)
Definition namesColumn (d : ExcelData) (f : FilterCondition) : Prop :=
  In (column f) (headers d) /\ column f <> EmptyString
  /\ In (operator f) recognizedOperators.


(** Two filters agree on column, operator and value, as
    [handleAcceptAISuggestion] compares them. *)
Definition sameCondition (f g : FilterCondition) : Prop :=
  column f = column g /\ operator f = operator g /\ value f = value g.


(** * Properties *)

(** ** The filter engine *)

Section FilterEngineFacts.
Context `{E : ECMAScript}.

Lemma filter_swap {A} (p q : A -> bool) (l : list A) :
  List.filter p (List.filter q l) = List.filter q (List.filter p l).
Proof.
  induction l as [|a l IH]; simpl; [reflexivity|].
  destruct (q a) eqn:Hq, (p a) eqn:Hp; simpl; rewrite ?Hq, ?Hp, IH; reflexivity.
Qed.

(** The loop keeps exactly the rows that every filter accepts. *)
Lemma applyAdvancedFilters_In (fs : list FilterCondition) :
  forall (data : list (gmap string jsvalue)) (row : gmap string jsvalue),
    In row (applyAdvancedFilters data fs) <->
    In row data /\ Forall (fun f => filterRow f row = true) fs.
Proof.
  unfold applyAdvancedFilters.
  induction fs as [|f fs IH]; intros data row; simpl.
  - split; [intros H; split; [exact H | constructor] | intros [H _]; exact H].
  - rewrite IH, filter_In. split.
    + intros [[Hin Hf] Hfs]. split; [exact Hin | constructor; assumption].
    + intros [Hin Hall]. inversion Hall; subst. repeat split; assumption.
Qed.

(** With [customFilters] the call cannot throw: the text search is skipped. *)
Lemma applyFilters_custom (filters : list FilterCondition) (inputValue : string)
    (data : list (gmap string jsvalue)) (fs : list FilterCondition) :
  applyFilters filters inputValue data (Some fs) = ret (applyAdvancedFilters data fs).
Proof. reflexivity. Qed.

Lemma filterRow_missing (f : FilterCondition) (row : gmap string jsvalue) :
  getCell row (column f) = VUndefined \/ getCell row (column f) = VNull ->
  filterRow f row = false.
Proof. unfold filterRow. intros [-> | ->]; reflexivity. Qed.

Lemma filterRow_unrecognized (f : FilterCondition) (row : gmap string jsvalue) :
  ~ In (operator f) recognizedOperators ->
  getCell row (column f) <> VUndefined ->
  getCell row (column f) <> VNull ->
  filterRow f row = true.
Proof.
  intros Hop Hu Hn. unfold filterRow.
  assert (Hne : forall name, In name recognizedOperators ->
                             String.eqb (operator f) name = false).
  { intros name Hin. apply String.eqb_neq. intros Heq. apply Hop.
    rewrite Heq. exact Hin. }
  rewrite !Hne by (simpl; tauto).
  destruct (getCell row (column f)); congruence.
Qed.

Lemma filterRow_ordered (f : FilterCondition) (row : gmap string jsvalue) :
  In (operator f) orderedOperators ->
  getCell row (column f) <> VUndefined ->
  getCell row (column f) <> VNull ->
  filterRow f row =
  compareCascade (orderedComparison (operator f)) (getCell row (column f)) (value f).
Proof.
  intros Hop Hu Hn. unfold filterRow.
  destruct (getCell row (column f)) eqn:Hc; try congruence;
    simpl in Hop;
    destruct Hop as [<- | [<- | [<- | [<- | []]]]]; reflexivity.
Qed.

End FilterEngineFacts.

Section FilterEngineClaims.
Context `{E : ECMAScript}.

(** C2, as amended: a filter never matches a row whose cell for the filter's
    column is [undefined] (the column is absent) or [null], whatever the
    operator, and [applyFilters] leaves such a row out.  An empty-string cell
    is not covered by the guard. *)
Theorem missing_cell_never_matches (fs : list FilterCondition)
    (f : FilterCondition) (row : gmap string jsvalue) :
  In f fs ->
  getCell row (column f) = VUndefined \/ getCell row (column f) = VNull ->
  filterRow f row = false /\
  forall filters inputValue data,
    exists out, applyFilters filters inputValue data (Some fs) = ret out
                /\ ~ In row out.
Proof.
  intros Hin Hcell. pose proof (filterRow_missing f row Hcell) as Hf.
  split; [exact Hf|]. intros filters inputValue data.
  exists (applyAdvancedFilters data fs). split; [apply applyFilters_custom|].
  rewrite applyAdvancedFilters_In. intros [_ Hall].
  rewrite List.Forall_forall in Hall. specialize (Hall f Hin). congruence.
Qed.

(** C5: for the four ordered operators and a cell that is present, the
    filter is the numeric comparison when both sides coerce to numbers;
    otherwise the comparison of the time values when both sides coerce to
    dates; otherwise it does not match and the row is left out. *)
Theorem ordered_operator_cascade (f : FilterCondition) (row : gmap string jsvalue) :
  In (operator f) orderedOperators ->
  getCell row (column f) <> VUndefined ->
  getCell row (column f) <> VNull ->
  let c := getCell row (column f) in
  let v := VStr (value f) in
  let bothNumbers := negb (isNaN (Number c)) && negb (isNaN (Number v)) in
  let bothDates :=
    negb (isNaN (DateTimeValue c)) && negb (isNaN (DateTimeValue v)) in
  (bothNumbers = true ->
   filterRow f row = orderedComparison (operator f) (Number c) (Number v)) /\
  (bothNumbers = false -> bothDates = true ->
   filterRow f row =
   orderedComparison (operator f) (DateTimeValue c) (DateTimeValue v)) /\
  (bothNumbers = false -> bothDates = false ->
   filterRow f row = false /\
   forall filters inputValue data,
     exists out, applyFilters filters inputValue data (Some [f]) = ret out
                 /\ ~ In row out).
Proof.
  intros Hop Hu Hn c v bothNumbers bothDates.
  pose proof (filterRow_ordered f row Hop Hu Hn) as Hrow.
  unfold compareCascade in Hrow. fold c v bothNumbers bothDates in Hrow.
  split; [|split].
  - intros Hb. rewrite Hrow, Hb. reflexivity.
  - intros Hb Hd. rewrite Hrow, Hb, Hd. reflexivity.
  - intros Hb Hd.
    assert (Hf : filterRow f row = false) by (rewrite Hrow, Hb, Hd; reflexivity).
    split; [exact Hf|]. intros filters inputValue data.
    exists (applyAdvancedFilters data [f]). split; [apply applyFilters_custom|].
    rewrite applyAdvancedFilters_In. intros [_ Hall].
    inversion Hall as [|? ? Hf' _]; subst. congruence.
Qed.

(** C6: the order of two filters does not change the rows [applyFilters]
    returns: either way they are the rows of the data, in their order, that
    both filters accept. *)
Theorem filter_order_invariance (filters : list FilterCondition)
    (inputValue : string) (data : list (gmap string jsvalue))
    (f1 f2 : FilterCondition) :
  applyFilters filters inputValue data (Some [f1; f2]) =
  applyFilters filters inputValue data (Some [f2; f1])
  /\ applyFilters filters inputValue data (Some [f1; f2]) =
     ret (List.filter (fun row => filterRow f1 row && filterRow f2 row) data).
Proof.
  rewrite !applyFilters_custom. unfold applyAdvancedFilters. simpl. split.
  - rewrite filter_swap. reflexivity.
  - f_equal. induction data as [|row data IH]; simpl; [reflexivity|].
    destruct (filterRow f1 row); simpl; [|exact IH].
    destruct (filterRow f2 row); simpl; rewrite IH; reflexivity.
Qed.

(** C10: a filter whose operator is none of the six recognized names matches
    every row whose cell for its column is neither [undefined] nor [null]:
    [applyFilters] keeps such a row. *)
Theorem unrecognized_operator_matches (f : FilterCondition)
    (row : gmap string jsvalue) :
  ~ In (operator f) recognizedOperators ->
  getCell row (column f) <> VUndefined ->
  getCell row (column f) <> VNull ->
  filterRow f row = true /\
  forall filters inputValue data,
    In row data ->
    exists out, applyFilters filters inputValue data (Some [f]) = ret out
                /\ In row out.
Proof.
  intros Hop Hu Hn. pose proof (filterRow_unrecognized f row Hop Hu Hn) as Hf.
  split; [exact Hf|]. intros filters inputValue data Hin.
  exists (applyAdvancedFilters data [f]). split; [apply applyFilters_custom|].
  rewrite applyAdvancedFilters_In. split; [exact Hin|].
  constructor; [exact Hf | constructor].
Qed.

End FilterEngineClaims.

(** ** Plain objects *)

Section ObjectFacts.
Context `{E : ECMAScript}.

Lemma length_append (a b : string) :
  String.length (a +:+ b) = (String.length a + String.length b)%nat.
Proof. induction a as [|ch a IH]; simpl; [reflexivity | rewrite IH; reflexivity]. Qed.

Lemma lookup_setProperty_eq (key : string) (v : primitive)
    (obj : gmap string jsvalue) :
  key <> "__proto__" -> setProperty key v obj !! key = Some (ofPrimitive v).
Proof.
  intros Hk. unfold setProperty. apply String.eqb_neq in Hk. rewrite Hk.
  apply lookup_insert_eq.
Qed.

Lemma lookup_setProperty_ne (key key' : string) (v : primitive)
    (obj : gmap string jsvalue) :
  key <> key' -> setProperty key v obj !! key' = obj !! key'.
Proof.
  intros Hk. unfold setProperty. destruct (String.eqb key "__proto__");
    [reflexivity | apply lookup_insert_ne, Hk].
Qed.

Lemma lookup_setProperty_proto (key : string) (v : primitive)
    (obj : gmap string jsvalue) :
  obj !! "__proto__" = None -> setProperty key v obj !! "__proto__" = None.
Proof.
  intros Hobj. unfold setProperty. destruct (String.eqb key "__proto__") eqn:Hk;
    [exact Hobj|]. apply String.eqb_neq in Hk.
  rewrite lookup_insert_ne by exact Hk. exact Hobj.
Qed.

Lemma prototypeMember_In (key : string) :
  prototypeMember key = true -> In key ("__proto__" :: prototypeFunctions).
Proof.
  unfold prototypeMember. intros H. apply orb_true_iff in H.
  destruct H as [H | H].
  - apply String.eqb_eq in H. left. symmetry. exact H.
  - apply List.existsb_exists in H. destruct H as (name & Hin & Heq).
    apply String.eqb_eq in Heq. subst key. right. exact Hin.
Qed.

Lemma inherited_plain (key : string) :
  prototypeMember key = false -> inherited key = VUndefined.
Proof.
  unfold prototypeMember, inherited. intros H. apply orb_false_iff in H.
  destruct H as [-> ->]. reflexivity.
Qed.

Lemma inherited_proto : inherited "__proto__" = VObject "[object Object]".
Proof. reflexivity. Qed.

(** No member of [Object.prototype] has a name that ends in [_count] or in
    [_avg]. *)
Lemma count_plain (y : string) : prototypeMember (y +:+ "_count") = false.
Proof.
  destruct (prototypeMember (y +:+ "_count")) eqn:H; [|reflexivity].
  apply prototypeMember_In in H.
  assert (Hlast : forall name, name = y +:+ "_count" ->
            String.get (String.length name - 1) name = Some "t"%char).
  { intros name ->. rewrite length_append. simpl String.length.
    replace (String.length y + 6 - 1)%nat with (5 + String.length y)%nat by lia.
    rewrite <- String.append_correct2. reflexivity. }
  simpl in H.
  repeat (destruct H as [H | H]; [apply Hlast in H; discriminate H|]).
  destruct H.
Qed.

Lemma avg_plain (y : string) : prototypeMember (y +:+ "_avg") = false.
Proof.
  destruct (prototypeMember (y +:+ "_avg")) eqn:H; [|reflexivity].
  apply prototypeMember_In in H.
  assert (Hlast : forall name, name = y +:+ "_avg" ->
            String.get (String.length name - 2) name = Some "v"%char).
  { intros name ->. rewrite length_append. simpl String.length.
    replace (String.length y + 4 - 2)%nat with (2 + String.length y)%nat by lia.
    rewrite <- String.append_correct2. reflexivity. }
  simpl in H.
  repeat (destruct H as [H | H]; [apply Hlast in H; discriminate H|]).
  destruct H.
Qed.

Lemma count_not_proto (y : string) : y +:+ "_count" <> "__proto__".
Proof.
  intros H. pose proof (count_plain y) as Hp. rewrite H in Hp. discriminate Hp.
Qed.

Lemma avg_not_proto (y : string) : y +:+ "_avg" <> "__proto__".
Proof.
  intros H. pose proof (avg_plain y) as Hp. rewrite H in Hp. discriminate Hp.
Qed.

End ObjectFacts.

(** ** The aggregator *)

Section MapFacts.

Lemma get_set_eq (m : list (string * entry)) (k : string) (e : entry) :
  JSMap.get (JSMap.set m k e) k = Some e.
Proof.
  induction m as [|[k' e'] m IH]; simpl.
  - rewrite String.eqb_refl. reflexivity.
  - destruct (String.eqb k' k) eqn:Hk; simpl.
    + rewrite String.eqb_refl. reflexivity.
    + rewrite Hk. exact IH.
Qed.

Lemma get_set_ne (m : list (string * entry)) (k k' : string) (e : entry) :
  k <> k' -> JSMap.get (JSMap.set m k e) k' = JSMap.get m k'.
Proof.
  intros Hne. induction m as [|[k0 e0] m IH]; simpl.
  - destruct (String.eqb k k') eqn:Hk; [|reflexivity].
    apply String.eqb_eq in Hk. contradiction.
  - destruct (String.eqb k0 k) eqn:Hk; simpl.
    + apply String.eqb_eq in Hk. subst k0.
      destruct (String.eqb k k') eqn:Hk'; [|reflexivity].
      apply String.eqb_eq in Hk'. contradiction.
    + destruct (String.eqb k0 k'); [reflexivity | exact IH].
Qed.

Lemma has_keys (m : list (string * entry)) (k : string) :
  JSMap.has m k = true <-> In k (map fst m).
Proof.
  unfold JSMap.has. induction m as [|[k0 e0] m IH]; simpl.
  - split; [discriminate | tauto].
  - rewrite orb_true_iff, IH, String.eqb_eq. tauto.
Qed.

Lemma get_none (m : list (string * entry)) (k : string) :
  JSMap.has m k = false -> JSMap.get m k = None.
Proof.
  unfold JSMap.has. induction m as [|[k0 e0] m IH]; simpl; [reflexivity|].
  intros H. apply orb_false_iff in H. destruct H as [H1 H2].
  rewrite H1. apply IH, H2.
Qed.

Lemma set_set (m : list (string * entry)) (k : string) (e e' : entry) :
  JSMap.set (JSMap.set m k e) k e' = JSMap.set m k e'.
Proof.
  induction m as [|[k0 e0] m IH]; simpl.
  - rewrite String.eqb_refl. reflexivity.
  - destruct (String.eqb k0 k) eqn:Hk; simpl.
    + rewrite String.eqb_refl. reflexivity.
    + rewrite Hk, IH. reflexivity.
Qed.

Lemma keys_set (m : list (string * entry)) (k : string) (e : entry) :
  map fst (JSMap.set m k e) =
  if JSMap.has m k then map fst m else map fst m ++ [k].
Proof.
  unfold JSMap.has. induction m as [|[k0 e0] m IH]; simpl; [reflexivity|].
  destruct (String.eqb k0 k) eqn:Hk; simpl.
  - apply String.eqb_eq in Hk. subst. reflexivity.
  - rewrite IH. destruct (existsb _ m); reflexivity.
Qed.

Lemma In_get (m : list (string * entry)) (k : string) (e : entry) :
  List.NoDup (map fst m) -> In (k, e) m -> JSMap.get m k = Some e.
Proof.
  induction m as [|[k0 e0] m IH]; simpl; [tauto|].
  intros Hnd [Heq | Hin].
  - inversion Heq; subst. rewrite String.eqb_refl. reflexivity.
  - inversion Hnd as [|? ? Hnotin Hnd']; subst.
    destruct (String.eqb k0 k) eqn:Hk.
    + apply String.eqb_eq in Hk. subst k0. exfalso. apply Hnotin.
      apply (in_map fst) in Hin. exact Hin.
    + apply IH; assumption.
Qed.

End MapFacts.

Section SortFacts.
Context {A : Type} (compare : A -> A -> float).

Lemma insert_Permutation (x : A) (l : list A) :
  Permutation (JSArray.insert compare x l) (x :: l).
Proof.
  induction l as [|p ps IH]; simpl; [reflexivity|].
  destruct (JSArray.negative (compare x p)); [|reflexivity].
  rewrite IH. apply perm_swap.
Qed.

Lemma sort_Permutation (l : list A) : Permutation (JSArray.sort compare l) l.
Proof.
  unfold JSArray.sort. rewrite <- Permutation_rev.
  assert (H : forall acc,
             Permutation
               (fold_left (fun sortedRev x => JSArray.insert compare x sortedRev) l acc)
               (acc ++ l)).
  { induction l as [|x l IH]; intros acc; simpl.
    - rewrite app_nil_r. reflexivity.
    - rewrite IH, insert_Permutation. apply Permutation_middle. }
  apply (H []).
Qed.

Variable l0 : list A.
Hypothesis antisymmetric : forall a b, In a l0 -> In b l0 ->
  JSArray.negative (compare a b) = true -> mayPrecede compare a b.
Hypothesis transitive : forall a b c, In a l0 -> In b l0 -> In c l0 ->
  mayPrecede compare a b -> mayPrecede compare b c -> mayPrecede compare a c.

Lemma insert_sorted (x : A) (acc : list A) :
  In x l0 -> incl acc l0 ->
  StronglySorted (fun a b => mayPrecede compare b a) acc ->
  StronglySorted (fun a b => mayPrecede compare b a) (JSArray.insert compare x acc).
Proof.
  intros Hx. induction acc as [|p ps IH]; intros Hincl Hs; simpl.
  - constructor; constructor.
  - assert (Hp : In p l0) by (apply Hincl; left; reflexivity).
    assert (Hps : incl ps l0) by (intros z Hz; apply Hincl; right; exact Hz).
    inversion Hs as [|? ? Hs' Hall]; subst.
    destruct (JSArray.negative (compare x p)) eqn:Hneg.
    + constructor; [apply IH; assumption|].
      apply List.Forall_forall. intros z Hz.
      apply (Permutation_in _ (insert_Permutation x ps)) in Hz.
      destruct Hz as [<- | Hz].
      * apply antisymmetric; assumption.
      * rewrite List.Forall_forall in Hall. apply Hall, Hz.
    + constructor; [exact Hs|].
      apply List.Forall_forall. intros z [<- | Hz].
      * exact Hneg.
      * rewrite List.Forall_forall in Hall.
        apply (transitive z p x);
          [apply Hps, Hz | exact Hp | exact Hx | apply Hall, Hz | exact Hneg].
Qed.

Lemma StronglySorted_rev (R : A -> A -> Prop) (l : list A) :
  StronglySorted (fun a b => R b a) l -> StronglySorted R (rev l).
Proof.
  induction l as [|a l IH]; intros Hs; simpl; [constructor|].
  inversion Hs as [|? ? Hs' Hall]; subst. specialize (IH Hs').
  assert (Hrev : Forall (fun z => R z a) (rev l)).
  { apply List.Forall_forall. intros z Hz. apply in_rev in Hz.
    rewrite List.Forall_forall in Hall. apply Hall, Hz. }
  clear Hs Hs' Hall. induction (rev l) as [|b r IHr]; simpl.
  - constructor; constructor.
  - inversion IH as [|? ? Hr Hb]; subst. inversion Hrev; subst.
    constructor; [apply IHr; assumption|].
    apply List.Forall_app. split; [exact Hb | constructor; [assumption | constructor]].
Qed.

Lemma sort_sorted : StronglySorted (mayPrecede compare) (JSArray.sort compare l0).
Proof.
  unfold JSArray.sort. apply StronglySorted_rev.
  assert (H : forall l acc, incl l l0 -> incl acc l0 ->
             StronglySorted (fun a b => mayPrecede compare b a) acc ->
             StronglySorted (fun a b => mayPrecede compare b a)
               (fold_left (fun sortedRev x => JSArray.insert compare x sortedRev) l acc)).
  { induction l as [|x l IH]; intros acc Hl Hacc Hs; simpl; [exact Hs|].
    apply IH.
    - intros z Hz. apply Hl. right. exact Hz.
    - intros z Hz. apply (Permutation_in _ (insert_Permutation x acc)) in Hz.
      destruct Hz as [<- | Hz]; [apply Hl; left; reflexivity | apply Hacc, Hz].
    - apply insert_sorted; [apply Hl; left; reflexivity | exact Hacc | exact Hs]. }
  apply H; [apply incl_refl | intros z [] | constructor].
Qed.

End SortFacts.

Section AggregatorFacts.
Context `{E : ECMAScript}.
Variables xAxis yAxis : string.

Lemma accumulate_set (m : list (string * entry)) (row : gmap string jsvalue) :
  accumulate xAxis yAxis m row =
  JSMap.set m (groupKey xAxis row)
            (bump yAxis row (default emptyEntry (JSMap.get m (groupKey xAxis row)))).
Proof.
  unfold accumulate, bump. fold (groupKey xAxis row).
  destruct (JSMap.has m (groupKey xAxis row)) eqn:Hhas.
  - destruct (negb (isNaN (Number (getCell row yAxis)))); reflexivity.
  - rewrite get_set_eq, set_set, (get_none _ _ Hhas).
    destruct (negb (isNaN (Number (getCell row yAxis)))); reflexivity.
Qed.

Lemma groupRows_snoc (p : list (gmap string jsvalue)) (row : gmap string jsvalue)
    (k : string) :
  groupRows xAxis (p ++ [row]) k =
  groupRows xAxis p k ++ (if String.eqb (groupKey xAxis row) k then [row] else []).
Proof. unfold groupRows. rewrite List.filter_app. reflexivity. Qed.

Lemma entryOf_snoc_same (p : list (gmap string jsvalue)) (row : gmap string jsvalue) :
  entryOf xAxis yAxis (p ++ [row]) (groupKey xAxis row) =
  bump yAxis row (entryOf xAxis yAxis p (groupKey xAxis row)).
Proof.
  unfold entryOf, bump. rewrite groupRows_snoc, String.eqb_refl.
  unfold numericCells, total. rewrite !List.map_app, List.filter_app. simpl.
  destruct (negb (isNaN (Number (getCell row yAxis)))); simpl.
  - rewrite List.fold_left_app, List.length_app. reflexivity.
  - rewrite app_nil_r. reflexivity.
Qed.

Lemma entryOf_snoc_other (p : list (gmap string jsvalue))
    (row : gmap string jsvalue) (k : string) :
  groupKey xAxis row <> k ->
  entryOf xAxis yAxis (p ++ [row]) k = entryOf xAxis yAxis p k.
Proof.
  intros Hne. unfold entryOf. rewrite groupRows_snoc.
  apply String.eqb_neq in Hne. rewrite Hne, app_nil_r. reflexivity.
Qed.

Lemma holds_empty : holds xAxis yAxis [] [].
Proof.
  split; [constructor|]. split; [intros k; simpl; tauto|].
  intros k. reflexivity.
Qed.

Lemma holds_accumulate (m : list (string * entry)) (p : list (gmap string jsvalue))
    (row : gmap string jsvalue) :
  holds xAxis yAxis m p -> holds xAxis yAxis (accumulate xAxis yAxis m row) (p ++ [row]).
Proof.
  intros (Hnd & Hkeys & Hent). rewrite accumulate_set.
  set (k0 := groupKey xAxis row).
  split; [|split].
  - rewrite keys_set. destruct (JSMap.has m k0) eqn:Hhas; [exact Hnd|].
    apply List.NoDup_app; [exact Hnd | constructor; [intros [] | constructor] |].
    intros k Hk [<- | []]. apply has_keys in Hk. congruence.
  - intros k. rewrite keys_set, List.map_app, List.in_app_iff. simpl.
    destruct (JSMap.has m k0) eqn:Hhas.
    + rewrite Hkeys. split; [tauto|]. intros [H | [<- | []]]; [exact H|].
      apply Hkeys, has_keys, Hhas.
    + rewrite List.in_app_iff, Hkeys. simpl. tauto.
  - intros k. destruct (String.eqb k0 k) eqn:Hk.
    + apply String.eqb_eq in Hk. subst k.
      rewrite get_set_eq. simpl. rewrite Hent. symmetry. apply entryOf_snoc_same.
    + apply String.eqb_neq in Hk.
      rewrite get_set_ne by exact Hk. rewrite Hent. symmetry.
      apply entryOf_snoc_other, Hk.
Qed.

Lemma holds_fold (data : list (gmap string jsvalue)) :
  forall m p, holds xAxis yAxis m p ->
    holds xAxis yAxis (fold_left (accumulate xAxis yAxis) data m) (p ++ data).
Proof.
  induction data as [|row data IH]; intros m p H; simpl.
  - rewrite app_nil_r. exact H.
  - replace (p ++ row :: data) with ((p ++ [row]) ++ data)
      by (rewrite <- app_assoc; reflexivity).
    apply IH, holds_accumulate, H.
Qed.

Lemma aggregated_holds (data : list (gmap string jsvalue)) :
  holds xAxis yAxis (fold_left (accumulate xAxis yAxis) data []) data.
Proof. apply (holds_fold data [] []), holds_empty. Qed.

(** Past the guard, the result is the sorted list of the chart rows. *)
Lemma aggregate_unfold (data : list (gmap string jsvalue)) :
  data <> [] -> xAxis <> "" -> yAxis <> "" ->
  aggregateDataForChart data xAxis yAxis =
  JSArray.sort (compareRows xAxis)
    (map (toChartRow xAxis yAxis) (fold_left (accumulate xAxis yAxis) data [])).
Proof.
  intros Hd Hx Hy. unfold aggregateDataForChart.
  destruct data; [congruence|]. destruct xAxis; [congruence|].
  destruct yAxis; [congruence|]. reflexivity.
Qed.

Lemma append_ne (s t : string) : t <> "" -> s +:+ t <> s.
Proof.
  intros Ht Heq. apply Ht. clear Ht.
  induction s as [|a s IH]; simpl in Heq; [exact Heq|].
  inversion Heq. auto.
Qed.

Lemma append_inj (s t u : string) : s +:+ t = s +:+ u -> t = u.
Proof. induction s; simpl; intros H; [exact H|]. inversion H. auto. Qed.

Lemma count_avg_ne : yAxis +:+ "_count" <> yAxis +:+ "_avg".
Proof. intros H. apply append_inj in H. discriminate. Qed.

(** The fields of a chart row. *)
Lemma toChartRow_key (k : string) (e : entry) :
  xAxis <> "__proto__" ->
  xAxis <> yAxis -> xAxis <> yAxis +:+ "_count" -> xAxis <> yAxis +:+ "_avg" ->
  getCell (toChartRow xAxis yAxis (k, e)) xAxis = VStr k.
Proof.
  intros H0 H1 H2 H3. unfold toChartRow, getCell. simpl.
  destruct (0 <? count e)%nat.
  - rewrite !lookup_setProperty_ne by congruence.
    rewrite lookup_setProperty_eq by exact H0. reflexivity.
  - rewrite lookup_setProperty_ne by congruence.
    rewrite lookup_setProperty_eq by exact H0. reflexivity.
Qed.

Lemma toChartRow_numeric (k : string) (e : entry) :
  (0 < count e)%nat ->
  let o := toChartRow xAxis yAxis (k, e) in
  (yAxis <> "__proto__" -> getCell o yAxis = VNum (sum e))
  /\ getCell o (yAxis +:+ "_count") = VNum (numOfNat (count e))
  /\ getCell o (yAxis +:+ "_avg") = VNum (PrimFloat.div (sum e) (numOfNat (count e))).
Proof.
  intros Hc. unfold toChartRow, getCell. simpl.
  apply Nat.ltb_lt in Hc. rewrite Hc.
  pose proof (append_ne yAxis "_count" ltac:(discriminate)) as Hn1.
  pose proof (append_ne yAxis "_avg" ltac:(discriminate)) as Hn2.
  pose proof count_avg_ne as Hn3.
  pose proof (count_not_proto yAxis) as Hp1.
  pose proof (avg_not_proto yAxis) as Hp2.
  repeat split.
  - intros Hy. rewrite !lookup_setProperty_ne by congruence.
    rewrite lookup_setProperty_eq by exact Hy. reflexivity.
  - rewrite lookup_setProperty_ne by congruence.
    rewrite lookup_setProperty_eq by exact Hp1. reflexivity.
  - rewrite lookup_setProperty_eq by exact Hp2. reflexivity.
Qed.

Lemma toChartRow_counted (k : string) (e : entry) :
  count e = 0%nat ->
  let o := toChartRow xAxis yAxis (k, e) in
  (yAxis <> "__proto__" -> getCell o yAxis = VNum (numOfNat (length (values e))))
  /\ (xAxis <> yAxis +:+ "_count" -> getCell o (yAxis +:+ "_count") = VUndefined)
  /\ (xAxis <> yAxis +:+ "_avg" -> getCell o (yAxis +:+ "_avg") = VUndefined)
  /\ (xAxis = yAxis +:+ "_count" \/ xAxis = yAxis +:+ "_avg" ->
      getCell o xAxis = VStr k).
Proof.
  intros Hc. unfold toChartRow, getCell. simpl. rewrite Hc. simpl.
  pose proof (append_ne yAxis "_count" ltac:(discriminate)) as Hn1.
  pose proof (append_ne yAxis "_avg" ltac:(discriminate)) as Hn2.
  pose proof (count_not_proto yAxis) as Hp1.
  pose proof (avg_not_proto yAxis) as Hp2.
  repeat split.
  - intros Hy. rewrite lookup_setProperty_eq by exact Hy. reflexivity.
  - intros Hx. rewrite !lookup_setProperty_ne by congruence.
    rewrite lookup_empty. simpl. apply inherited_plain, count_plain.
  - intros Hx. rewrite !lookup_setProperty_ne by congruence.
    rewrite lookup_empty. simpl. apply inherited_plain, avg_plain.
  - intros [-> | ->].
    + rewrite lookup_setProperty_ne by congruence.
      rewrite lookup_setProperty_eq by exact Hp1. reflexivity.
    + rewrite lookup_setProperty_ne by congruence.
      rewrite lookup_setProperty_eq by exact Hp2. reflexivity.
Qed.

(** Every output row is the chart row of one group of the data. *)
Lemma aggregate_rows (data : list (gmap string jsvalue)) (o : gmap string jsvalue) :
  data <> [] -> xAxis <> "" -> yAxis <> "" ->
  In o (aggregateDataForChart data xAxis yAxis) ->
  exists k, In k (map (groupKey xAxis) data)
            /\ o = toChartRow xAxis yAxis (k, entryOf xAxis yAxis data k).
Proof.
  intros Hd Hx Hy Hin. rewrite aggregate_unfold in Hin by assumption.
  apply (Permutation_in _ (sort_Permutation _ _)) in Hin.
  apply List.in_map_iff in Hin. destruct Hin as ([k e] & <- & Hke).
  destruct (aggregated_holds data) as (Hnd & Hkeys & Hent).
  exists k. split.
  - apply Hkeys. apply (in_map fst) in Hke. exact Hke.
  - specialize (Hent k). rewrite (In_get _ _ _ Hnd Hke) in Hent. simpl in Hent.
    rewrite Hent. reflexivity.
Qed.

End AggregatorFacts.

Section AggregatorClaims.
Context `{E : ECMAScript}.

(** C3, as amended: on an empty row list [aggregateDataForChart] returns the
    empty list, and on an empty [xAxis] or [yAxis] it returns the rows it
    was given, unchanged; it raises no error. *)
Theorem aggregate_guard (data : list (gmap string jsvalue)) (xAxis yAxis : string) :
  aggregateDataForChart [] xAxis yAxis = []
  /\ aggregateDataForChart data "" yAxis = data
  /\ aggregateDataForChart data xAxis "" = data.
Proof.
  unfold aggregateDataForChart. split; [reflexivity|]. split.
  - simpl. rewrite orb_true_r. reflexivity.
  - simpl. rewrite orb_true_r. reflexivity.
Qed.

(** C4, as amended: past the guard, every output row belongs to one group
    of the data.  An assignment to the key [__proto__] stores nothing, so
    the key and the value are read back for axes of another name.  When
    some [yAxis] cell of the group coerces to a number, the value is the sum
    of the coercible cells and the average that sum divided by their number,
    and the count is the number of rows of the group when all of them
    coerce.  When no cell coerces, the value is the number of rows of the
    group, and the row has no count and no average, unless the key column
    itself has that name: the field then holds the group key. *)
Theorem aggregate_group_row (data : list (gmap string jsvalue))
    (xAxis yAxis : string) (o : gmap string jsvalue) :
  data <> [] -> xAxis <> "" -> yAxis <> "" ->
  In o (aggregateDataForChart data xAxis yAxis) ->
  exists k,
    In k (map (groupKey xAxis) data) /\
    let g := groupRows xAxis data k in
    let nums := numericCells yAxis g in
    (xAxis <> "__proto__" ->
     xAxis <> yAxis -> xAxis <> yAxis +:+ "_count" -> xAxis <> yAxis +:+ "_avg" ->
     getCell o xAxis = VStr k) /\
    (nums <> [] ->
     (yAxis <> "__proto__" -> getCell o yAxis = VNum (total nums))
     /\ getCell o (yAxis +:+ "_avg")
        = VNum (PrimFloat.div (total nums) (numOfNat (length nums)))
     /\ (length nums = length g ->
         getCell o (yAxis +:+ "_count") = VNum (numOfNat (length g)))) /\
    (nums = [] ->
     (yAxis <> "__proto__" -> getCell o yAxis = VNum (numOfNat (length g)))
     /\ (xAxis <> yAxis +:+ "_count" ->
         getCell o (yAxis +:+ "_count") = VUndefined)
     /\ (xAxis <> yAxis +:+ "_avg" ->
         getCell o (yAxis +:+ "_avg") = VUndefined)
     /\ (xAxis = yAxis +:+ "_count" \/ xAxis = yAxis +:+ "_avg" ->
         getCell o xAxis = VStr k)).
Proof.
  intros Hd Hx Hy Hin.
  destruct (aggregate_rows xAxis yAxis data o Hd Hx Hy Hin) as (k & Hk & ->).
  exists k. split; [exact Hk|]. intros g nums.
  set (e := entryOf xAxis yAxis data k).
  assert (Hsum : sum e = total nums) by reflexivity.
  assert (Hcount : count e = length nums) by reflexivity.
  assert (Hvalues : length (values e) = length g)
    by (unfold e, entryOf; simpl; apply List.length_map).
  split; [apply toChartRow_key|]. split.
  - intros Hnums.
    assert (Hpos : (0 < count e)%nat).
    { rewrite Hcount. destruct nums; [congruence | simpl; lia]. }
    destruct (toChartRow_numeric xAxis yAxis k e Hpos) as (H1 & H2 & H3).
    rewrite Hsum, Hcount in *. split; [exact H1|]. split; [exact H3|].
    intros Hall. rewrite <- Hall. exact H2.
  - intros Hnums.
    assert (Hzero : count e = 0%nat) by (rewrite Hcount, Hnums; reflexivity).
    destruct (toChartRow_counted xAxis yAxis k e Hzero) as (H1 & H2 & H3 & H4).
    rewrite Hvalues in H1. auto.
Qed.

Lemma consistentOn_spec (keys : list string) :
  consistentOn keys = true ->
  (forall a b, In a keys -> In b keys ->
     JSArray.negative (compareKeys a b) = true -> keyBefore a b)
  /\ (forall a b c, In a keys -> In b keys -> In c keys ->
        keyBefore a b -> keyBefore b c -> keyBefore a c).
Proof.
  unfold consistentOn. intros H. rewrite List.forallb_forall in H.
  assert (Hb : forall a b, keyBeforeb a b = true <-> keyBefore a b).
  { intros a b. unfold keyBeforeb, keyBefore. apply negb_true_iff. }
  split.
  - intros a b Ha Hb' Hneg. specialize (H a Ha).
    rewrite List.forallb_forall in H. specialize (H b Hb').
    apply andb_true_iff in H. destruct H as [H _].
    rewrite Hneg in H. simpl in H. apply Hb, H.
  - intros a b c Ha Hb' Hc Hab Hbc. specialize (H a Ha).
    rewrite List.forallb_forall in H. specialize (H b Hb').
    apply andb_true_iff in H. destruct H as [_ H].
    rewrite List.forallb_forall in H. specialize (H c Hc).
    apply Hb in Hab. apply Hb in Hbc. rewrite Hab, Hbc in H. simpl in H.
    apply Hb, H.
Qed.

Lemma groupKey_chartRow (xAxis yAxis k : string) (e : entry) :
  xAxis <> "__proto__" ->
  xAxis <> yAxis -> xAxis <> yAxis +:+ "_count" -> xAxis <> yAxis +:+ "_avg" ->
  groupKey xAxis (toChartRow xAxis yAxis (k, e)) = k.
Proof.
  intros H0 H1 H2 H3. unfold groupKey. rewrite toChartRow_key by assumption.
  destruct k; reflexivity.
Qed.

Lemma compareRows_chartRows (xAxis yAxis k k' : string) (e e' : entry) :
  xAxis <> "__proto__" ->
  xAxis <> yAxis -> xAxis <> yAxis +:+ "_count" -> xAxis <> yAxis +:+ "_avg" ->
  compareRows xAxis (toChartRow xAxis yAxis (k, e)) (toChartRow xAxis yAxis (k', e'))
  = compareKeys k k'.
Proof.
  intros H0 H1 H2 H3. unfold compareRows. rewrite !toChartRow_key by assumption.
  reflexivity.
Qed.

Lemma StronglySorted_map {A B} (R : A -> A -> Prop) (R' : B -> B -> Prop)
    (f : A -> B) (l : list A) :
  (forall a b, In a l -> In b l -> R a b -> R' (f a) (f b)) ->
  StronglySorted R l -> StronglySorted R' (map f l).
Proof.
  induction l as [|a l IH]; intros HR Hs; simpl; [constructor|].
  inversion Hs as [|? ? Hs' Hall]; subst. constructor.
  - apply IH; [|exact Hs']. intros x y Hx Hy. apply HR; right; assumption.
  - apply List.Forall_forall. intros z Hz. apply List.in_map_iff in Hz.
    destruct Hz as (b & <- & Hb). rewrite List.Forall_forall in Hall.
    apply HR; [left; reflexivity | right; exact Hb | apply Hall, Hb].
Qed.

(** Past the guard and with the key column apart from the value columns,
    the output has one row per group key; and when the comparator is
    consistent on the keys, the rows are pairwise in its order. *)
Lemma aggregate_sorted (data : list (gmap string jsvalue)) (xAxis yAxis : string) :
  data <> [] -> xAxis <> "" -> yAxis <> "" -> xAxis <> "__proto__" ->
  xAxis <> yAxis -> xAxis <> yAxis +:+ "_count" -> xAxis <> yAxis +:+ "_avg" ->
  consistentOn (map (groupKey xAxis) data) = true ->
  let keys := map (groupKey xAxis) (aggregateDataForChart data xAxis yAxis) in
  List.NoDup keys
  /\ (forall k, In k keys <-> In k (map (groupKey xAxis) data))
  /\ StronglySorted keyBefore keys.
Proof.
  intros Hd Hx Hy H0 H1 H2 H3 Hcons keys. subst keys.
  rewrite aggregate_unfold by assumption.
  destruct (aggregated_holds xAxis yAxis data) as (Hnd & Hkeys & _).
  set (m := fold_left (accumulate xAxis yAxis) data []) in *.
  set (chartRows := map (toChartRow xAxis yAxis) m).
  assert (Hmk : map (groupKey xAxis) chartRows = map fst m).
  { unfold chartRows. rewrite List.map_map. apply List.map_ext.
    intros [k e]. apply groupKey_chartRow; assumption. }
  assert (Hperm : Permutation
                    (map (groupKey xAxis) (JSArray.sort (compareRows xAxis) chartRows))
                    (map fst m)).
  { rewrite <- Hmk. apply Permutation_map, sort_Permutation. }
  assert (Hrow : forall o, In o chartRows ->
                   exists k e, o = toChartRow xAxis yAxis (k, e)
                               /\ In k (map (groupKey xAxis) data)).
  { intros o Ho. apply List.in_map_iff in Ho. destruct Ho as ([k e] & <- & Hke).
    exists k, e. split; [reflexivity|]. apply Hkeys.
    apply (in_map fst) in Hke. exact Hke. }
  destruct (consistentOn_spec _ Hcons) as (Hanti & Htrans).
  split; [|split].
  - apply (Permutation_NoDup (Permutation_sym Hperm)), Hnd.
  - intros k. rewrite <- Hkeys. split; intros Hk.
    + apply (Permutation_in _ Hperm), Hk.
    + apply (Permutation_in _ (Permutation_sym Hperm)), Hk.
  - apply (StronglySorted_map (mayPrecede (compareRows xAxis))).
    + intros a b Ha Hb.
      apply (Permutation_in _ (sort_Permutation _ _)) in Ha.
      apply (Permutation_in _ (sort_Permutation _ _)) in Hb.
      destruct (Hrow a Ha) as (ka & ea & -> & _).
      destruct (Hrow b Hb) as (kb & eb & -> & _).
      unfold mayPrecede. rewrite compareRows_chartRows by assumption.
      rewrite !groupKey_chartRow by assumption. auto.
    + apply sort_sorted.
      * intros a b Ha Hb.
        destruct (Hrow a Ha) as (ka & ea & -> & Hka).
        destruct (Hrow b Hb) as (kb & eb & -> & Hkb).
        unfold mayPrecede. rewrite !compareRows_chartRows by assumption.
        apply Hanti; assumption.
      * intros a b c Ha Hb Hc.
        destruct (Hrow a Ha) as (ka & ea & -> & Hka).
        destruct (Hrow b Hb) as (kb & eb & -> & Hkb).
        destruct (Hrow c Hc) as (kc & ec & -> & Hkc).
        unfold mayPrecede. rewrite !compareRows_chartRows by assumption.
        apply Htrans; assumption.
Qed.

End AggregatorClaims.

(** ** The filter engine and the aggregator on the example data *)

Section WorkedExamples.
#[local] Existing Instance Reference.ES.
Import Examples.

(** The grid rows of the uploaded table. *)
Example people_grid : convertToGridData peopleTable = people.
Proof. vm_compute. reflexivity. Qed.

(** C2, the claim as stated fails: the second row of [people] has the empty
    string in its [name] cell, and the filter [name equals ""] matches it;
    [applyFilters] returns exactly that row.  So do [name contains ""] and,
    the empty string being the number 0, [name less 5]. *)
Lemma empty_cell_matches_equals :
  In "equals" recognizedOperators
  /\ getCell emptyName "name" = VStr ""
  /\ filterRow (condition "name" "equals" "") emptyName = true
  /\ applyFilters [] "" people (Some [condition "name" "equals" ""])
     = ret [emptyName]
  /\ filterRow (condition "name" "contains" "") emptyName = true
  /\ filterRow (condition "name" "less" "5") emptyName = true.
Proof.
  split; [left; reflexivity|]. split; [reflexivity|].
  repeat split; vm_compute; reflexivity.
Qed.

(** A row without the [city] column, under a filter on [city]. *)
Lemma missing_cell_never_matches_people :
  In (condition "city" "contains" "") [condition "city" "contains" ""]
  /\ getCell emptyName (column (condition "city" "contains" "")) = VUndefined
  /\ filterRow (condition "city" "contains" "") emptyName = false
  /\ forall filters inputValue data,
       exists out,
         applyFilters filters inputValue data (Some [condition "city" "contains" ""])
         = ret out /\ ~ In emptyName out.
Proof.
  assert (Hin : In (condition "city" "contains" "") [condition "city" "contains" ""])
    by (left; reflexivity).
  assert (Hcell : getCell emptyName (column (condition "city" "contains" "")) = VUndefined)
    by reflexivity.
  split; [exact Hin|]. split; [exact Hcell|].
  exact (missing_cell_never_matches _ _ emptyName Hin (or_introl Hcell)).
Defined.

(** The numeric branch on the first row of [people]: [30 > 28]. *)
Lemma ordered_operator_cascade_age :
  In (operator (condition "age" "greater" "28")) orderedOperators
  /\ getCell (rowOf [("name", "john smith"); ("age", "30")]) "age" = VStr "30"
  /\ filterRow (condition "age" "greater" "28")
               (rowOf [("name", "john smith"); ("age", "30")])
     = orderedComparison "greater" (StringToNumber "30") (StringToNumber "28").
Proof.
  assert (Hop : In (operator (condition "age" "greater" "28")) orderedOperators)
    by (left; reflexivity).
  assert (Hcell : getCell (rowOf [("name", "john smith"); ("age", "30")]) "age"
                  = VStr "30") by reflexivity.
  split; [exact Hop|]. split; [exact Hcell|].
  refine (proj1 (ordered_operator_cascade (condition "age" "greater" "28")
                   (rowOf [("name", "john smith"); ("age", "30")]) Hop _ _) _).
  - simpl column. rewrite Hcell. discriminate.
  - simpl column. rewrite Hcell. discriminate.
  - vm_compute. reflexivity.
Defined.

(** An operator outside the six, as an unvalidated response may carry. *)
Lemma unrecognized_operator_matches_people :
  ~ In (operator (condition "age" "between" "20")) recognizedOperators
  /\ filterRow (condition "age" "between" "20") emptyName = true
  /\ forall filters inputValue data,
       In emptyName data ->
       exists out,
         applyFilters filters inputValue data (Some [condition "age" "between" "20"])
         = ret out /\ In emptyName out.
Proof.
  assert (Hop : ~ In (operator (condition "age" "between" "20")) recognizedOperators).
  { simpl. intros H. repeat (destruct H as [H | H]; [discriminate H|]). exact H. }
  assert (Hcell : getCell emptyName (column (condition "age" "between" "20"))
                  = VStr "25") by reflexivity.
  split; [exact Hop|].
  refine (unrecognized_operator_matches (condition "age" "between" "20")
            emptyName Hop _ _).
  - rewrite Hcell. discriminate.
  - rewrite Hcell. discriminate.
Defined.

(** The examples of the specification for the three branches. *)
Example numeric_branch_people :
  map (fun row => getCell row "age")
      (applyAdvancedFilters people [condition "age" "greater" "28"])
  = [VStr "30"; VStr "40"].
Proof. vm_compute. reflexivity. Qed.

Example date_branch :
  applyAdvancedFilters
    [rowOf [("date", "2024-01-01")]; rowOf [("date", "2023-06-15")]]
    [condition "date" "less" "2024-01-01"]
  = [rowOf [("date", "2023-06-15")]].
Proof. vm_compute. reflexivity. Qed.

Example contains_ignores_case :
  filterRow (condition "name" "contains" "JOHN")
            (rowOf [("name", "john smith"); ("age", "30")]) = true.
Proof. vm_compute. reflexivity. Qed.

(** C3, the claim as stated fails: with an empty [xAxis] the rows come back
    as they are, not as an empty list. *)
Lemma aggregate_without_axis_returns_rows :
  aggregateDataForChart people "" "age" = people
  /\ length (aggregateDataForChart people "" "age") = 3%nat
  /\ aggregateDataForChart people "name" "" = people.
Proof. repeat split. Qed.

(** C4, the claim as stated fails on [sales] grouped by [region]: the group
    [west] has one row and no numeric [amount], and its value is 1, not 0,
    with no count and no average; the group [east] has three rows, two of
    them numeric, and its count is 2. *)
Lemma sales_by_region :
  let out := aggregateDataForChart sales "region" "amount" in
  map (groupKey "region") out = ["east"; "west"]
  /\ numericCells "amount" (groupRows "region" sales "west") = []
  /\ map (fun o => getCell o "amount") out = [VNum 12.5; VNum 1]
  /\ PrimFloat.eqb 1 PrimFloat.zero = false
  /\ map (fun o => getCell o "amount_avg") out = [VNum 6.25; VUndefined]
  /\ length (groupRows "region" sales "east") = 3%nat
  /\ map (fun o => getCell o "amount_count") out = [VNum 2; VUndefined].
Proof. vm_compute. repeat split. Qed.

Lemma aggregate_group_row_sales :
  In (hd ∅ (aggregateDataForChart sales "region" "amount"))
     (aggregateDataForChart sales "region" "amount")
  /\ exists k,
       In k (map (groupKey "region") sales) /\
       (getCell (hd ∅ (aggregateDataForChart sales "region" "amount")) "region"
        = VStr k) /\
       (numericCells "amount" (groupRows "region" sales k) <> [] ->
        getCell (hd ∅ (aggregateDataForChart sales "region" "amount")) "amount"
        = VNum (total (numericCells "amount" (groupRows "region" sales k)))).
Proof.
  assert (Hin : In (hd ∅ (aggregateDataForChart sales "region" "amount"))
                   (aggregateDataForChart sales "region" "amount"))
    by (vm_compute; left; reflexivity).
  split; [exact Hin|].
  destruct (aggregate_group_row sales "region" "amount" _
              ltac:(discriminate) ltac:(discriminate) ltac:(discriminate) Hin)
    as (k & Hk & Hkey & Hnum & _).
  exists k. split; [exact Hk|]. split.
  - apply Hkey; discriminate.
  - intros Hne. apply (proj1 (Hnum Hne)). discriminate.
Defined.

End WorkedExamples.

(** ** The order of the chart rows *)

Section ChartOrder.
#[local] Existing Instance Reference.ES.
Import Examples.

(** C7, the claim as stated fails: the keys [2], [10] and [1a] come out in
    this order, although [1a] is no number and stands before [2] as a text;
    and no order of the three keys puts every pair in the order of the
    comparator. *)
Lemma cyclic_keys_are_not_sorted :
  map (groupKey "category") (aggregateDataForChart rooms "category" "count")
  = ["2"; "10"; "1a"]
  /\ isNaN (StringToNumber "1a") = true
  /\ JSArray.negative (localeCompare "1a" "2") = true
  /\ ~ StronglySorted keyBefore
       (map (groupKey "category") (aggregateDataForChart rooms "category" "count"))
  /\ Forall (fun keys => ~ StronglySorted keyBefore keys)
       [ ["2"; "10"; "1a"]; ["2"; "1a"; "10"]; ["10"; "2"; "1a"];
         ["10"; "1a"; "2"]; ["1a"; "2"; "10"]; ["1a"; "10"; "2"] ].
Proof.
  split; [vm_compute; reflexivity|]. split; [vm_compute; reflexivity|].
  split; [vm_compute; reflexivity|]. split.
  - replace (map (groupKey "category")
               (aggregateDataForChart rooms "category" "count"))
      with ["2"; "10"; "1a"] by (vm_compute; reflexivity).
    refute_sorted.
  - repeat (constructor; [refute_sorted|]). constructor.
Qed.

(** C7, as amended: past the guard (rows, and both axes named) and with
    the key column apart from the value columns and from [__proto__], the
    output has one row per group key, and whenever the comparator (numeric
    when both keys parse as numbers, [localeCompare] otherwise) is
    consistent on the keys of the data, every pair of output rows is in its
    order.  For the keys [10], [2], [bravo], [alpha] the output order is
    [2], [10], [alpha], [bravo]. *)
Theorem aggregate_sorted_by_key :
  (forall (E : ECMAScript) (data : list (gmap string jsvalue)) (xAxis yAxis : string),
     data <> [] -> xAxis <> "" -> yAxis <> "" -> xAxis <> "__proto__" ->
     xAxis <> yAxis -> xAxis <> yAxis +:+ "_count" -> xAxis <> yAxis +:+ "_avg" ->
     consistentOn (map (groupKey xAxis) data) = true ->
     let keys := map (groupKey xAxis) (aggregateDataForChart data xAxis yAxis) in
     List.NoDup keys
     /\ (forall k, In k keys <-> In k (map (groupKey xAxis) data))
     /\ StronglySorted keyBefore keys)
  /\ map (groupKey "category")
         (aggregateDataForChart categories "category" "count")
     = ["2"; "10"; "alpha"; "bravo"].
Proof.
  split.
  - intros E. apply (@aggregate_sorted E).
  - vm_compute. reflexivity.
Qed.

Lemma aggregate_sorted_by_key_categories :
  consistentOn (map (groupKey "category") categories) = true
  /\ StronglySorted keyBefore
       (map (groupKey "category")
            (aggregateDataForChart categories "category" "count")).
Proof.
  assert (Hc : consistentOn (map (groupKey "category") categories) = true)
    by (vm_compute; reflexivity).
  split; [exact Hc|].
  refine (proj2 (proj2 (proj1 aggregate_sorted_by_key Reference.ES categories
                          "category" "count" _ _ _ _ _ _ _ Hc)));
    discriminate.
Defined.

End ChartOrder.

(** ** The regular expressions *)

Section RegexFacts.
Import Regex.

Lemma star_spec (p : ascii -> bool) (k : cont) (s : string) :
  forall pos c r,
    star p k s pos c = Some r ->
    exists a b, s = a +:+ b /\ allChars p a = true
                /\ k b (pos + String.length a)%nat c = Some r.
Proof.
  induction s as [|ch s IH]; intros pos c r H; simpl in H.
  - exists EmptyString, EmptyString. simpl. rewrite Nat.add_0_r. auto.
  - destruct (p ch) eqn:Hp.
    + destruct (star p k s (S pos) c) as [r'|] eqn:Hs.
      * inversion H; subst r'. destruct (IH _ _ _ Hs) as (a & b & -> & Ha & Hk).
        exists (String ch a), b. simpl. rewrite Hp, Ha.
        rewrite Nat.add_succ_r. auto.
      * exists EmptyString, (String ch s). simpl. rewrite Nat.add_0_r. auto.
    + exists EmptyString, (String ch s). simpl. rewrite Nat.add_0_r. auto.
Qed.

Lemma plus_spec (p : ascii -> bool) (pat : list node) (s : string) :
  forall pos c r,
    run (Plus p :: pat) s pos c = Some r ->
    exists a b, s = a +:+ b /\ a <> EmptyString /\ allChars p a = true
                /\ run pat b (pos + String.length a)%nat c = Some r.
Proof.
  intros pos c r H. simpl in H. destruct s as [|ch s]; [discriminate|].
  destruct (p ch) eqn:Hp; [|discriminate].
  destruct (star_spec _ _ _ _ _ _ H) as (a & b & -> & Ha & Hk).
  exists (String ch a), b. simpl. rewrite Hp, Ha, Nat.add_succ_r.
  repeat split; [discriminate | exact Hk].
Qed.

Lemma lit_spec (ch : ascii) (pat : list node) (s : string) :
  forall pos c r,
    run (lit ch :: pat) s pos c = Some r ->
    exists b, s = String ch b /\ run pat b (S pos) c = Some r.
Proof.
  intros pos c r H. simpl in H. destruct s as [|a s]; [discriminate|].
  destruct (Ascii.eqb ch a) eqn:Heq; [|discriminate].
  apply Ascii.eqb_eq in Heq. subst a. exists s. auto.
Qed.

(** Whatever the [greater] template matches is a name, optional white
    space, [>], optional white space and digits. *)
Lemma greater_shape (s : string) (pos : nat) (c : captures) (e : nat)
    (c' : captures) :
  run Patterns.greater s pos c = Some (e, c') ->
  exists name sp1 sp2 digits rest,
    s = name +:+ sp1 +:+ ">" +:+ sp2 +:+ digits +:+ rest
    /\ name <> EmptyString /\ allChars word name = true
    /\ allChars space sp1 = true /\ allChars space sp2 = true
    /\ digits <> EmptyString /\ allChars digit digits = true
    /\ e = (pos + String.length (name +:+ sp1 +:+ ">" +:+ sp2 +:+ digits))%nat.
Proof.
  unfold Patterns.greater. intros H.
  change (run (Plus word :: Close 1 :: Star space :: lit ">" :: Star space
                 :: Open 2 :: Plus digit :: [Close 2]) s pos ((1, (pos, pos)) :: c)
          = Some (e, c')) in H.
  destruct (plus_spec _ _ _ _ _ _ H) as (name & s1 & -> & Hname & Hw & H1).
  change (star space (run (lit ">" :: Star space :: Open 2 :: Plus digit :: [Close 2]))
            s1 (pos + String.length name)
            (close 1 (pos + String.length name) ((1, (pos, pos)) :: c))
          = Some (e, c')) in H1.
  destruct (star_spec _ _ _ _ _ _ H1) as (sp1 & s2 & -> & Hsp1 & H2).
  destruct (lit_spec _ _ _ _ _ _ H2) as (s3 & -> & H3).
  change (star space (run (Open 2 :: Plus digit :: [Close 2])) s3
            (S (pos + String.length name + String.length sp1))
            (close 1 (pos + String.length name) ((1, (pos, pos)) :: c))
          = Some (e, c')) in H3.
  destruct (star_spec _ _ _ _ _ _ H3) as (sp2 & s4 & -> & Hsp2 & H4).
  match type of H4 with
  | run _ _ ?q ?cc = _ =>
      change (run (Plus digit :: [Close 2]) s4 q ((2, (q, q)) :: cc) = Some (e, c')) in H4
  end.
  destruct (plus_spec _ _ _ _ _ _ H4) as (digits & rest & -> & Hdigits & Hd & H5).
  simpl in H5. inversion H5; subst e.
  exists name, sp1, sp2, digits, rest.
  repeat split; try assumption.
  rewrite !length_append. simpl. lia.
Qed.

End RegexFacts.

(** ** Termination of the pattern matcher *)

Section MatcherTermination.
Import Regex.

Lemma star_bounded (p : ascii -> bool) (k : cont) :
  bounded k -> bounded (star p k).
Proof.
  intros Hk s. induction s as [|ch s IH]; intros pos c e c' H; simpl in H.
  - apply (Hk _ _ _ _ _ H).
  - destruct (p ch); [|apply (Hk _ _ _ _ _ H)].
    destruct (star p k s (S pos) c) as [[e0 c0]|] eqn:Hs.
    + inversion H; subst. apply IH in Hs. simpl. lia.
    + apply (Hk _ _ _ _ _ H).
Qed.

Lemma run_bounded (pat : list node) : bounded (run pat).
Proof.
  induction pat as [|n pat IH]; intros s pos c e c' H.
  - simpl in H. inversion H; subst. lia.
  - destruct n as [p|p|p|p|g|g]; simpl in H.
    + destruct s as [|a s]; [discriminate|]. destruct (p a); [|discriminate].
      apply IH in H. simpl. lia.
    + apply (star_bounded p _ IH _ _ _ _ _ H).
    + destruct s as [|a s]; [discriminate|]. destruct (p a); [|discriminate].
      apply (star_bounded p _ IH) in H. simpl. lia.
    + destruct s as [|a s]; [apply (IH _ _ _ _ _ H)|].
      destruct (p a); [|apply (IH _ _ _ _ _ H)].
      destruct (run pat s (S pos) c) as [[e0 c0]|] eqn:Hs.
      * inversion H; subst. apply IH in Hs. simpl. lia.
      * apply (IH _ _ _ _ _ H).
    + apply (IH _ _ _ _ _ H).
    + apply (IH _ _ _ _ _ H).
Qed.

Lemma run_consuming (g : nat) (p : ascii -> bool) (pat : list node) :
  consuming (run (Open g :: Plus p :: pat)).
Proof.
  intros s pos c e c' H. simpl in H.
  destruct s as [|a s]; [discriminate|]. destruct (p a); [|discriminate].
  apply (star_bounded p _ (run_bounded pat)) in H. lia.
Qed.

Lemma search_bounds (pat : list node) :
  consuming (run pat) ->
  forall s pos start e c,
    search pat s pos = Some (start, e, c) ->
    (pos <= start)%nat /\ (start < e)%nat /\ (e <= pos + String.length s)%nat.
Proof.
  intros Hc s. induction s as [|a s IH]; intros pos start e c H; simpl in H.
  - destruct (run pat EmptyString pos []) as [[e0 c0]|] eqn:Hr; [|discriminate].
    inversion H; subst. pose proof (Hc _ _ _ _ _ Hr).
    pose proof (run_bounded pat _ _ _ _ _ Hr). lia.
  - destruct (run pat (String a s) pos []) as [[e0 c0]|] eqn:Hr.
    + inversion H; subst. pose proof (Hc _ _ _ _ _ Hr).
      pose proof (run_bounded pat _ _ _ _ _ Hr). lia.
    + apply IH in H. simpl. lia.
Qed.

Lemma length_drop (n : nat) (s : string) :
  String.length (drop n s) = (String.length s - n)%nat.
Proof.
  revert s. induction n as [|n IH]; intros s; simpl.
  - destruct s; simpl; lia.
  - destruct s as [|a s]; simpl; [reflexivity | apply IH].
Qed.

(** With never-empty matches the loop ends within the fuel it is given. *)
Lemma execLoop_total (pat : list node) (str : string) :
  consuming (run pat) ->
  forall fuel lastIndex,
    (lastIndex <= String.length str)%nat ->
    (String.length str - lastIndex < fuel)%nat ->
    exists ms, execLoop fuel pat str lastIndex = Some ms.
Proof.
  intros Hc fuel. induction fuel as [|fuel IH]; intros lastIndex Hle Hfuel; [lia|].
  simpl. unfold exec.
  destruct (search pat (drop lastIndex str) lastIndex) as [[[start e] c]|] eqn:Hs;
    [|eexists; reflexivity].
  destruct (search_bounds pat Hc _ _ _ _ _ Hs) as (H1 & H2 & H3).
  rewrite length_drop in H3.
  assert (Hlt : (e <=? start)%nat = false) by (apply Nat.leb_gt; exact H2).
  rewrite Hlt. destruct (IH e) as (ms & ->); [lia | lia |].
  eexists. reflexivity.
Qed.

Lemma execAll_total (pat : list node) (str : string) :
  consuming (run pat) -> exists ms, execAll pat str = Some ms.
Proof. intros Hc. apply execLoop_total; [exact Hc | lia | lia]. Qed.

Lemma patterns_good : Forall goodPattern Patterns.patterns.
Proof.
  unfold Patterns.patterns, goodPattern.
  repeat (constructor; [split; [apply run_consuming | simpl; tauto]|]).
  constructor.
Qed.

Variable excelData : option ExcelData.
Variable now : nat -> N.

Lemma pushMatch_good (operator : string) (fs : list FilterCondition)
    (m : string * string) :
  In operator recognizedOperators ->
  Forall goodFilter fs -> Forall goodFilter (pushMatch excelData now operator fs m).
Proof.
  intros Hop Hfs. unfold pushMatch.
  destruct (findColumn excelData (fst m)) as [h|]; [|exact Hfs].
  destruct (nonEmpty h) eqn:Hh; [|exact Hfs].
  apply List.Forall_app. split; [exact Hfs|].
  constructor; [|constructor]. split; [exact Hh | exact Hop].
Qed.

Lemma forEachPattern_total (pats : list (list node * string)) (lowerQuery : string) :
  Forall goodPattern pats ->
  forall fs, Forall goodFilter fs ->
    exists out, forEachPattern excelData now pats lowerQuery fs = Some out
                /\ Forall goodFilter out.
Proof.
  induction pats as [|[regex operator] pats IH]; intros Hp fs Hfs; simpl.
  - exists fs. auto.
  - inversion Hp as [|? ? [Hc Hop] Hp']; subst. simpl in Hc, Hop.
    destruct (execAll_total regex lowerQuery Hc) as (ms & ->).
    apply IH; [exact Hp'|]. clear IH Hp Hp'. revert fs Hfs.
    induction ms as [|m ms IHm]; intros fs Hfs; simpl; [exact Hfs|].
    apply IHm, pushMatch_good; assumption.
Qed.

(** The pattern matcher returns, and what it returns are filters on named
    columns with recognized operators. *)
Lemma parseBasicQuery_total (query : string) :
  exists out, parseBasicQuery excelData now query = Some out
              /\ Forall goodFilter out.
Proof.
  unfold parseBasicQuery.
  apply forEachPattern_total; [apply patterns_good | constructor].
Qed.

End MatcherTermination.

(** ** The pattern matcher on the queries of the specification *)

Section PatternMatcherClaims.

(** C8: on ["sales > 15000 and status contains active"] with the columns
    [sales] and [status], the pattern matcher returns exactly two filters:
    [sales greater 15000] and [status contains active]. *)
Theorem pattern_matcher_end_to_end (rows : list (list primitive)) (now : nat -> N) :
  parseBasicQuery (Some {| headers := ["sales"; "status"]; rows := rows |}) now
    "sales > 15000 and status contains active"
  = Some
      [ {| id := "basic_filter_" +:+ JSString.ofN (now 0%nat) +:+ "_0";
           column := "sales"; operator := "greater"; value := "15000" |};
        {| id := "basic_filter_" +:+ JSString.ofN (now 1%nat) +:+ "_1";
           column := "status"; operator := "contains"; value := "active" |} ].
Proof. vm_compute. reflexivity. Qed.

(** C9, the claim as stated fails: on ["sales >= 100"] the [greater]
    template finds no match, the [greaterEqual] template finds one, and the
    only filter returned is the [greaterEqual] one. *)
Lemma greater_equal_query_yields_one_filter :
  Regex.execAll Patterns.greater "sales >= 100" = Some []
  /\ Regex.execAll Patterns.greaterEqual "sales >= 100" = Some [("sales", "100")]
  /\ parseBasicQuery (Some {| headers := ["sales"]; rows := [] |}) (fun _ => 0%N)
       "sales >= 100"
     = Some [ {| id := "basic_filter_0_0"; column := "sales";
                 operator := "greaterEqual"; value := "100" |} ].
Proof. vm_compute. repeat split. Qed.

(** C9, as amended: whatever the [greater] template matches, in any text
    and at any position, is a name, optional white space, [>], optional
    white space and at least one digit, so that it never matches on the [>]
    of a [>=]; and on ["sales >= 100"] with the column [sales] the pattern
    matcher returns the single filter [sales greaterEqual 100]. *)
Theorem greater_template_needs_digits :
  (forall (s : string) (pos : nat) (c : Regex.captures) (e : nat)
          (c' : Regex.captures),
     Regex.run Patterns.greater s pos c = Some (e, c') ->
     exists name sp1 sp2 digits rest,
       s = name +:+ sp1 +:+ ">" +:+ sp2 +:+ digits +:+ rest
       /\ name <> EmptyString /\ allChars Regex.word name = true
       /\ allChars Regex.space sp1 = true /\ allChars Regex.space sp2 = true
       /\ digits <> EmptyString /\ allChars Regex.digit digits = true
       /\ e = (pos + String.length (name +:+ sp1 +:+ ">" +:+ sp2 +:+ digits))%nat)
  /\ (forall (rows : list (list primitive)) (now : nat -> N),
        parseBasicQuery (Some {| headers := ["sales"]; rows := rows |}) now
          "sales >= 100"
        = Some [ {| id := "basic_filter_" +:+ JSString.ofN (now 0%nat) +:+ "_0";
                    column := "sales"; operator := "greaterEqual";
                    value := "100" |} ]).
Proof.
  split.
  - apply greater_shape.
  - intros rows now. vm_compute. reflexivity.
Qed.

(** The [greater] template on the query of the end-to-end example. *)
Lemma greater_template_needs_digits_sales :
  Regex.run Patterns.greater "sales > 15000 and status contains active" 0 []
  = Some (13%nat, [(2%nat, (8%nat, 13%nat)); (1%nat, (0%nat, 5%nat))])
  /\ exists name sp1 sp2 digits rest,
       "sales > 15000 and status contains active"
       = name +:+ sp1 +:+ ">" +:+ sp2 +:+ digits +:+ rest
       /\ digits <> EmptyString /\ allChars Regex.digit digits = true.
Proof.
  assert (H : Regex.run Patterns.greater
                "sales > 15000 and status contains active" 0 []
              = Some (13%nat, [(2%nat, (8%nat, 13%nat)); (1%nat, (0%nat, 5%nat))]))
    by (vm_compute; reflexivity).
  split; [exact H|].
  destruct (proj1 greater_template_needs_digits _ _ _ _ _ H)
    as (name & sp1 & sp2 & digits & rest & Hs & _ & _ & _ & _ & Hd & Hall & _).
  exists name, sp1, sp2, digits, rest. auto.
Defined.

End PatternMatcherClaims.

(** ** The query interpreter *)

Section InterpreterFacts.
Context `{E : ECMAScript}.

Lemma bind_inr {A B} (m : completion A) (k : A -> completion B) (b : B) :
  bind m k = inr b -> exists a, m = inr a /\ k a = inr b.
Proof. destruct m as [e|a]; simpl; [discriminate|]. intros H. exists a. auto. Qed.

Lemma lookup_assign_eq (fields : list (string * json)) (name : string) (v : json) :
  JSObject.lookup (JSObject.assign fields name v) name = Some v.
Proof.
  induction fields as [|[k v'] fields IH]; simpl.
  - rewrite String.eqb_refl. reflexivity.
  - destruct (String.eqb k name) eqn:Hk; simpl; rewrite Hk; [reflexivity | exact IH].
Qed.

Lemma lookup_assign_ne (fields : list (string * json)) (name name' : string)
    (v : json) :
  name <> name' ->
  JSObject.lookup (JSObject.assign fields name v) name'
  = JSObject.lookup fields name'.
Proof.
  intros Hne. induction fields as [|[k v'] fields IH]; simpl.
  - apply String.eqb_neq in Hne. rewrite Hne. reflexivity.
  - destruct (String.eqb k name) eqn:Hk; simpl.
    + apply String.eqb_eq in Hk. subst k.
      apply String.eqb_neq in Hne. rewrite Hne. reflexivity.
    + rewrite IH. reflexivity.
Qed.

Lemma defaulted_truthy (o : option json) (dflt : json) :
  truthyJ (Some dflt) = true ->
  truthyJ (Some match o with
                | Some i => if truthyJ o then i else dflt
                | None => dflt
                end) = true.
Proof.
  intros Hd. destruct o as [i|]; [|exact Hd].
  destruct (truthyJ (Some i)) eqn:Hi; [exact Hi | exact Hd].
Qed.

Variable now : nat -> N.

Lemma withId_wellFormed (filter : json) (index : nat) (j : json) :
  withId now filter index = inr j -> wellFormedFilter j.
Proof.
  unfold withId. intros H.
  destruct filter as [|b|x|s|elements|fields]; simpl in H; try discriminate.
  destruct (negb (truthyJ (JSObject.lookup fields "column"))
            || negb (truthyJ (JSObject.lookup fields "operator"))
            || match JSObject.lookup fields "value" with
               | Some _ => false
               | None => true
               end) eqn:Htest; [discriminate|].
  inversion H; subst j. clear H.
  apply orb_false_iff in Htest. destruct Htest as [Htest Hvalue].
  apply orb_false_iff in Htest. destruct Htest as [Hcolumn Hoperator].
  apply negb_false_iff in Hcolumn, Hoperator.
  eexists. split; [reflexivity|]. split; [|split; [|split]].
  - eexists. apply lookup_assign_eq.
  - rewrite lookup_assign_ne by discriminate. exact Hcolumn.
  - rewrite lookup_assign_ne by discriminate. exact Hoperator.
  - rewrite lookup_assign_ne by discriminate.
    destruct (JSObject.lookup fields "value"); [discriminate | discriminate].
Qed.

Lemma mapWithId_wellFormed (filters : list json) :
  forall index out,
    mapWithId now filters index = inr out -> Forall wellFormedFilter out.
Proof.
  induction filters as [|filter filters IH]; intros index out H; simpl in H.
  - inversion H. constructor.
  - apply bind_inr in H. destruct H as (f & Hf & H).
    apply bind_inr in H. destruct H as (fs & Hfs & H).
    inversion H; subst out. constructor.
    + apply (withId_wellFormed _ _ _ Hf).
    + apply (IH _ _ Hfs).
Qed.

Lemma filterObject_wellFormed (f : FilterCondition) :
  goodFilter f -> wellFormedFilter (filterObject f).
Proof.
  intros [Hcolumn Hop]. unfold filterObject. eexists. split; [reflexivity|].
  simpl. split; [eexists; reflexivity|]. split; [exact Hcolumn|].
  split; [|discriminate].
  simpl in Hop.
  repeat (destruct Hop as [<- | Hop]; [reflexivity|]). contradiction.
Qed.

Variable excelData : option ExcelData.
Variable selectedProvider selectedModel : string.
Variable selectedProfile : option json.
Variable fetch : Request -> completion Response.

(** What the [try] block returns when it returns. *)
Lemma tryBlock_result (d : ExcelData) (q : string) (r : AIAnalysisResult) :
  tryBlock selectedProvider selectedModel selectedProfile fetch now d q = inr r ->
  query r = q /\ success r = true /\ error r = None
  /\ truthyJ (Some (interpretation r)) = true
  /\ Forall wellFormedFilter (filters r).
Proof.
  unfold tryBlock. intros H.
  repeat (apply bind_inr in H; destruct H as (? & ? & H)).
  inversion H; subst r. simpl.
  repeat split.
  - apply defaulted_truthy. reflexivity.
  - eapply mapWithId_wellFormed. eassumption.
Qed.

(** What the [catch] block returns: it always does. *)
Lemma catchBlock_result (q : string) (error0 : thrown) :
  exists r, catchBlock excelData now q error0 = Some (ret r)
            /\ query r = q
            /\ truthyJ (Some (interpretation r)) = true
            /\ Forall wellFormedFilter (filters r)
            /\ (success r = true
                \/ (success r = false /\ filters r = [] /\ error r <> None)).
Proof.
  unfold catchBlock.
  destruct (parseBasicQuery_total excelData now q) as (basicFilters & -> & Hgood).
  destruct (0 <? length basicFilters)%nat.
  - eexists. split; [reflexivity|]. simpl. split; [reflexivity|].
    split; [reflexivity|]. split; [|left; reflexivity].
    apply List.Forall_forall. intros j Hj. apply List.in_map_iff in Hj.
    destruct Hj as (f & <- & Hf). apply filterObject_wellFormed.
    rewrite List.Forall_forall in Hgood. apply Hgood, Hf.
  - eexists. split; [reflexivity|]. simpl. split; [reflexivity|].
    split; [reflexivity|]. split; [constructor|]. right. repeat split. discriminate.
Qed.

End InterpreterFacts.

Section InterpreterClaims.
Context `{E : ECMAScript}.

(** C1: for every query, every table (column list and rows), every state
    of the component and every behaviour of the service and of the clock,
    [analyzeSearchQuery] returns and does not throw; what it returns carries
    the query, an interpretation that is not empty, well-formed filters, and
    either [success] or no filter and an error text.  Before a table is
    loaded, which the one caller rules out, the guard throws. *)
Theorem analyzeSearchQuery_total
    (selectedProvider selectedModel : string) (selectedProfile : option json)
    (fetch : Request -> completion Response) (now : nat -> N) (q : string) :
  (forall d : ExcelData,
     exists r,
       analyzeSearchQuery (Some d) selectedProvider selectedModel selectedProfile
         fetch now q = Some (ret r)
       /\ query r = q
       /\ truthyJ (Some (interpretation r)) = true
       /\ Forall wellFormedFilter (filters r)
       /\ (success r = true
           \/ (success r = false /\ filters r = [] /\ error r <> None)))
  /\ analyzeSearchQuery None selectedProvider selectedModel selectedProfile
       fetch now q
     = Some (throw (ErrorObject "No data available for analysis")).
Proof.
  split; [|reflexivity]. intros d. unfold analyzeSearchQuery.
  destruct (tryBlock selectedProvider selectedModel selectedProfile fetch now d q)
    as [error0 | r] eqn:Htry.
  - apply catchBlock_result.
  - destruct (tryBlock_result _ _ _ _ _ _ _ _ Htry) as (Hq & Hs & _ & Hi & Hf).
    exists r. repeat split; [exact Hq | exact Hi | exact Hf | left; exact Hs].
Qed.

End InterpreterClaims.

Section InterpreterExamples.
#[local] Existing Instance Reference.ES.
Import Examples.

(** Before a table is loaded the guard of [analyzeSearchQuery] throws; the
    guard stands outside the [try] block. *)
Example analyzeSearchQuery_without_table_throws :
  analyzeSearchQuery None "gemini" "gemini-1.5-flash" None unreachable
    (fun _ => 0%N) "sales > 15000"
  = Some (throw (ErrorObject "No data available for analysis")).
Proof. reflexivity. Qed.

(** The service is unreachable and the query has a pattern: the fallback
    answers. *)
Example fallback_finds_filters :
  option_map (fun c => match c with
                       | inr r => (success r, length (filters r), error r)
                       | inl _ => (false, 0%nat, None)
                       end)
    (analyzeSearchQuery (Some salesTable) "gemini" "gemini-1.5-flash" None
       unreachable (fun _ => 0%N) "sales > 15000 and status contains active")
  = Some (true, 2%nat, None).
Proof. vm_compute. reflexivity. Qed.

(** The service is unreachable and the query has no pattern. *)
Example fallback_finds_nothing :
  option_map (fun c => match c with
                       | inr r => (success r, filters r, error r)
                       | inl _ => (true, [], None)
                       end)
    (analyzeSearchQuery (Some salesTable) "gemini" "gemini-1.5-flash" None
       unreachable (fun _ => 0%N) "show me the best customers")
  = Some (false, [], Some "Network error: Failed to fetch").
Proof. vm_compute. reflexivity. Qed.

End InterpreterExamples.


(** * Further properties of the page *)

(** ** The filter engine as one filter *)

Section FilterEngineMore.
Context `{E : ECMAScript}.

Lemma filter_all {A} (l : list A) : List.filter (fun _ => true) l = l.
Proof. induction l as [|a l IH]; simpl; [reflexivity | rewrite IH; reflexivity]. Qed.

Lemma filter_both {A} (p q : A -> bool) (l : list A) :
  List.filter p (List.filter q l) = List.filter (fun a => q a && p a) l.
Proof.
  induction l as [|a l IH]; simpl; [reflexivity|].
  destruct (q a); simpl; [destruct (p a); rewrite IH; reflexivity | exact IH].
Qed.

Lemma applyAdvancedFilters_filter (fs : list FilterCondition) :
  forall data : list (gmap string jsvalue),
    applyAdvancedFilters data fs
    = List.filter (fun row => forallb (fun f => filterRow f row) fs) data.
Proof.
  unfold applyAdvancedFilters.
  induction fs as [|f fs IH]; intros data; simpl.
  - symmetry. apply filter_all.
  - rewrite IH. apply filter_both.
Qed.

(** X1: the successive passes of [applyFilters] amount to one pass that keeps,
    in the order of the data, the rows every filter accepts. *)
Theorem applyFilters_is_one_filter (filters : list FilterCondition)
    (inputValue : string) (data : list (gmap string jsvalue))
    (fs : list FilterCondition) :
  applyFilters filters inputValue data (Some fs)
  = ret (List.filter (fun row => forallb (fun f => filterRow f row) fs) data).
Proof. rewrite applyFilters_custom, applyAdvancedFilters_filter. reflexivity. Qed.

Lemma filter_twice {A} (p : A -> bool) (l : list A) :
  List.filter p (List.filter p l) = List.filter p l.
Proof.
  rewrite filter_both. apply List.filter_ext. intros a. destruct (p a); reflexivity.
Qed.

(** X2: applying the same filters to the rows they returned changes nothing. *)
Theorem applyFilters_idempotent (filters : list FilterCondition)
    (inputValue : string) (data : list (gmap string jsvalue))
    (fs : list FilterCondition) :
  exists out,
    applyFilters filters inputValue data (Some fs) = ret out
    /\ applyFilters filters inputValue out (Some fs) = ret out.
Proof.
  exists (applyAdvancedFilters data fs). split; [apply applyFilters_custom|].
  rewrite applyFilters_custom, !applyAdvancedFilters_filter, filter_twice.
  reflexivity.
Qed.

Lemma forallb_Permutation {A} (p : A -> bool) (l l' : list A) :
  Permutation l l' -> forallb p l = forallb p l'.
Proof.
  induction 1 as [|a l l' _ IH|a b l|l l' l'' _ IH1 _ IH2]; simpl.
  - reflexivity.
  - rewrite IH. reflexivity.
  - destruct (p a), (p b); reflexivity.
  - rewrite IH1. exact IH2.
Qed.

(** X3: however a list of filters is reordered, [applyFilters] returns the same
    rows. *)
Theorem applyFilters_any_order (filters : list FilterCondition)
    (inputValue : string) (data : list (gmap string jsvalue))
    (fs fs' : list FilterCondition) :
  Permutation fs fs' ->
  applyFilters filters inputValue data (Some fs)
  = applyFilters filters inputValue data (Some fs').
Proof.
  intros Hp. rewrite !applyFilters_custom, !applyAdvancedFilters_filter. f_equal.
  apply List.filter_ext. intros row. apply forallb_Permutation, Hp.
Qed.

End FilterEngineMore.

(** ** The grid rows of a table *)

Section GridFacts.
Context `{E : ECMAScript}.

Lemma convertRow_fillRow (hs : list string) (row : list primitive) :
  convertRow hs row = fillRow row (combine hs (seq 0 (length hs))) ∅.
Proof. reflexivity. Qed.

Lemma fillRow_other (row : list primitive) (his : list (string * nat)) (h : string) :
  forall rowObj : gmap string jsvalue,
    ~ In h (map fst his) -> fillRow row his rowObj !! h = rowObj !! h.
Proof.
  unfold fillRow. induction his as [|[h' i] his IH]; intros rowObj Hn; simpl.
  - reflexivity.
  - rewrite IH by (intros Hin; apply Hn; right; exact Hin).
    apply lookup_setProperty_ne. intros Heq. apply Hn. left. exact Heq.
Qed.

Lemma fillRow_proto (row : list primitive) (his : list (string * nat)) :
  forall rowObj : gmap string jsvalue,
    rowObj !! "__proto__" = None -> fillRow row his rowObj !! "__proto__" = None.
Proof.
  unfold fillRow. induction his as [|[h' i] his IH]; intros rowObj Hn; simpl.
  - exact Hn.
  - apply IH, lookup_setProperty_proto, Hn.
Qed.

Lemma fillRow_app (row : list primitive) (his his' : list (string * nat))
    (rowObj : gmap string jsvalue) :
  fillRow row (his ++ his') rowObj = fillRow row his' (fillRow row his rowObj).
Proof. unfold fillRow. apply List.fold_left_app. Qed.

Lemma combine_seq_app (pre post : list string) (start : nat) :
  combine (pre ++ post) (seq start (length (pre ++ post)))
  = combine pre (seq start (length pre))
    ++ combine post (seq (start + length pre) (length post)).
Proof.
  revert start. induction pre as [|a pre IH]; intros start; simpl.
  - rewrite Nat.add_0_r. reflexivity.
  - rewrite IH. rewrite Nat.add_succ_r. reflexivity.
Qed.

Lemma map_fst_combine_seq (hs : list string) (start : nat) :
  map fst (combine hs (seq start (length hs))) = hs.
Proof.
  revert start. induction hs as [|a hs IH]; intros start; simpl;
    [reflexivity | rewrite IH; reflexivity].
Qed.

(** [cell || ""] is a string that is not empty, the empty string, or a
    number that is neither zero nor [NaN]. *)
Lemma cellOrElse_defined (a : primitive) :
  (exists s, ofPrimitive (cellOrElse a (PStr "")) = VStr s)
  \/ (exists x, ofPrimitive (cellOrElse a (PStr "")) = VNum x).
Proof.
  unfold cellOrElse. destruct a as [| |s|x]; simpl; eauto.
  - destruct (nonEmpty s); simpl; eauto.
  - destruct (truthyNum x); simpl; eauto.
Qed.

Lemma fillRow_Forall (P : jsvalue -> Prop) (row : list primitive)
    (his : list (string * nat)) :
  (forall i, P (ofPrimitive (cellOrElse (getIndex row i) (PStr "")))) ->
  forall rowObj : gmap string jsvalue,
    map_Forall (fun _ v => P v) rowObj ->
    map_Forall (fun _ v => P v) (fillRow row his rowObj).
Proof.
  intros HP. unfold fillRow.
  induction his as [|[h i] his IH]; intros rowObj Hall; simpl; [exact Hall|].
  apply IH. unfold setProperty. destruct (String.eqb h "__proto__");
    [exact Hall | apply map_Forall_insert_2; [apply HP | exact Hall]].
Qed.

Lemma convertRow_cells_last (hs : list string) (row : list primitive) (h : string)
    (pre post : list string) :
  hs = pre ++ h :: post -> ~ In h post -> h <> "__proto__" ->
  getCell (convertRow hs row) h
  = ofPrimitive (cellOrElse (getIndex row (length pre)) (PStr "")).
Proof.
  intros -> Hlast Hproto. unfold getCell.
  rewrite convertRow_fillRow, combine_seq_app, fillRow_app. simpl.
  change (fold_left _ ?l ?o) with (fillRow row l o).
  rewrite fillRow_other by (rewrite map_fst_combine_seq; exact Hlast).
  rewrite lookup_setProperty_eq by exact Hproto. reflexivity.
Qed.

Lemma convertRow_cells_absent (hs : list string) (row : list primitive) (h : string) :
  ~ In h hs \/ h = "__proto__" ->
  getCell (convertRow hs row) h = inherited h.
Proof.
  intros [Hn | ->]; unfold getCell; rewrite convertRow_fillRow.
  - rewrite fillRow_other by (rewrite map_fst_combine_seq; exact Hn).
    rewrite lookup_empty. reflexivity.
  - rewrite fillRow_proto by apply lookup_empty. reflexivity.
Qed.

(** X4: in a grid row, the cell under a header other than [__proto__] is
    read from the position of the last column of that name, an empty string
    standing for a missing or falsy cell.  A name that is no header, and the
    name [__proto__] even when it is one, read what the row inherits from
    [Object.prototype]: nothing, for a name that is no member of it. *)
Theorem convertRow_cells (hs : list string) (row : list primitive) (h : string) :
  (forall pre post,
     hs = pre ++ h :: post -> ~ In h post -> h <> "__proto__" ->
     getCell (convertRow hs row) h
     = ofPrimitive (cellOrElse (getIndex row (length pre)) (PStr "")))
  /\ (~ In h hs \/ h = "__proto__" ->
      getCell (convertRow hs row) h = inherited h)
  /\ (~ In h hs -> prototypeMember h = false ->
      getCell (convertRow hs row) h = VUndefined).
Proof.
  split; [|split].
  - intros pre post. apply convertRow_cells_last.
  - apply convertRow_cells_absent.
  - intros Hn Hplain. rewrite convertRow_cells_absent by (left; exact Hn).
    apply inherited_plain, Hplain.
Qed.

Lemma convertRow_defined (hs : list string) (row : list primitive) :
  map_Forall (fun _ v => v <> VUndefined /\ v <> VNull) (convertRow hs row).
Proof.
  rewrite convertRow_fillRow.
  apply (fillRow_Forall (fun v => v <> VUndefined /\ v <> VNull)).
  - intros i. destruct (cellOrElse_defined (getIndex row i)) as [[s ->] | [x ->]];
      split; discriminate.
  - apply map_Forall_empty.
Qed.

End GridFacts.

(** ** The handlers on the rows of a table *)

Section HandlerFacts.
Context `{E : ECMAScript}.

Lemma someCellIncludes_returns (needle : string) (cells : list jsvalue) :
  Forall (fun v => v <> VUndefined /\ v <> VNull) cells ->
  exists b, someCellIncludes needle cells = ret b.
Proof.
  induction 1 as [|cell cells [Hu Hn] _ IH]; simpl.
  - exists false. reflexivity.
  - destruct cell as [| |s|n|text]; try congruence; simpl.
    + destruct (JSString.includes (JSString.toLowerCase s) needle);
        [exists true; reflexivity | exact IH].
    + destruct (JSString.includes (JSString.toLowerCase (NumberToString n)) needle);
        [exists true; reflexivity | exact IH].
    + destruct (JSString.includes (JSString.toLowerCase text) needle);
        [exists true; reflexivity | exact IH].
Qed.

Lemma objectValues_defined (hs : list string) (row : list primitive) :
  Forall (fun v => v <> VUndefined /\ v <> VNull)
         (objectValues (convertRow hs row)).
Proof.
  unfold objectValues. apply List.Forall_forall. intros v Hv.
  apply List.in_map_iff in Hv. destruct Hv as ([k v'] & <- & Hin).
  apply list_elem_of_In, elem_of_map_to_list in Hin.
  apply (convertRow_defined hs row k v' Hin).
Qed.

Lemma textSearch_returns (needle : string) (hs : list string)
    (table : list (list primitive)) :
  exists out,
    textSearch needle (map (convertRow hs) table) = ret out
    /\ incl out (map (convertRow hs) table).
Proof.
  induction table as [|row table (rest & IH & Hincl)]; simpl.
  - exists []. split; [reflexivity | intros r []].
  - destruct (someCellIncludes_returns needle _ (objectValues_defined hs row))
      as (keep & ->). simpl. rewrite IH. simpl.
    destruct keep; eexists; (split; [reflexivity|]).
    + intros r [<- | Hr]; [left; reflexivity | right; apply Hincl, Hr].
    + intros r Hr. right. apply Hincl, Hr.
Qed.

(** X5: [handleSearch] never throws, whatever the table holds and whatever is in
    the search box and the filter list: the grid rows have no [null] or
    [undefined] cell for the text search to trip on.  The rows it shows are
    rows of the table that every filter of the state accepts. *)
Theorem handleSearch_returns (excelData : option ExcelData)
    (filters : list FilterCondition) (inputValue : string) :
  exists out,
    handleSearch excelData filters inputValue = ret out
    /\ forall row, In row out ->
         (exists d, excelData = Some d /\ In row (convertToGridData d))
         /\ Forall (fun f => filterRow f row = true) filters.
Proof.
  unfold handleSearch. destruct excelData as [d|].
  - unfold applyFilters, convertToGridData. simpl.
    destruct (nonEmpty (JSString.trim inputValue)).
    + destruct (textSearch_returns
                  (JSString.toLowerCase (JSString.trim inputValue))
                  (headers d) (rows d)) as (found & -> & Hincl).
      simpl. eexists. split; [reflexivity|]. intros row Hrow.
      apply applyAdvancedFilters_In in Hrow. destruct Hrow as [Hin Hall].
      split; [|exact Hall]. exists d. split; [reflexivity | apply Hincl, Hin].
    + simpl. eexists. split; [reflexivity|]. intros row Hrow.
      apply applyAdvancedFilters_In in Hrow. destruct Hrow as [Hin Hall].
      split; [|exact Hall]. exists d. split; [reflexivity | exact Hin].
  - exists []. split; [reflexivity | intros row []].
Qed.

(** X6: a filter on a column that the table does not have, and whose name
    is no member of [Object.prototype], empties the result, whatever its
    operator and whatever the other filters are. *)
Theorem unknown_column_matches_nothing (d : ExcelData)
    (filters : list FilterCondition) (inputValue : string)
    (filtersToApply : list FilterCondition) (f : FilterCondition) :
  In f filtersToApply ->
  ~ In (column f) (headers d) ->
  prototypeMember (column f) = false ->
  handleApplyFilters (Some d) filters inputValue filtersToApply = Some (ret []).
Proof.
  intros Hf Hcol Hplain. unfold handleApplyFilters.
  rewrite applyFilters_custom. do 2 f_equal.
  destruct (applyAdvancedFilters (convertToGridData d) filtersToApply)
    as [|row out] eqn:Hout; [reflexivity | exfalso].
  assert (Hrow : In row (applyAdvancedFilters (convertToGridData d) filtersToApply))
    by (rewrite Hout; left; reflexivity).
  apply applyAdvancedFilters_In in Hrow. destruct Hrow as [Hin Hall].
  rewrite List.Forall_forall in Hall. specialize (Hall f Hf).
  unfold convertToGridData in Hin. apply List.in_map_iff in Hin.
  destruct Hin as (cells & <- & _).
  rewrite filterRow_missing in Hall; [discriminate|].
  left. rewrite convertRow_cells_absent by (left; exact Hcol).
  apply inherited_plain, Hplain.
Qed.

End HandlerFacts.

(** ** The groups of the aggregator and the points of the chart *)

Section AggregatorMore.
Context `{E : ECMAScript}.

(** X7: past the guard, the output of [aggregateDataForChart] is, up to its
    order, one chart row for each distinct group key of the data, made from
    all the rows of that group; so it never has more rows than the data. *)
Theorem aggregate_one_row_per_group (data : list (gmap string jsvalue))
    (xAxis yAxis : string) :
  data <> [] -> xAxis <> "" -> yAxis <> "" ->
  exists keys,
    List.NoDup keys
    /\ (forall k, In k keys <-> In k (map (groupKey xAxis) data))
    /\ Permutation (aggregateDataForChart data xAxis yAxis)
         (map (fun k => toChartRow xAxis yAxis (k, entryOf xAxis yAxis data k)) keys)
    /\ (length (aggregateDataForChart data xAxis yAxis) <= length data)%nat.
Proof.
  intros Hd Hx Hy. rewrite aggregate_unfold by assumption.
  destruct (aggregated_holds xAxis yAxis data) as (Hnd & Hkeys & Hent).
  set (m := fold_left (accumulate xAxis yAxis) data []) in *.
  assert (Hrows : map (toChartRow xAxis yAxis) m
                  = map (fun k => toChartRow xAxis yAxis (k, entryOf xAxis yAxis data k))
                        (map fst m)).
  { rewrite List.map_map. apply List.map_ext_in. intros [k e] Hke. simpl.
    specialize (Hent k). rewrite (In_get _ _ _ Hnd Hke) in Hent. simpl in Hent.
    rewrite Hent. reflexivity. }
  exists (map fst m). split; [exact Hnd|]. split; [exact Hkeys|]. split.
  - rewrite <- Hrows. apply sort_Permutation.
  - rewrite (Permutation_length (sort_Permutation _ _)), List.length_map.
    rewrite <- (List.length_map fst m), <- (List.length_map (groupKey xAxis) data).
    apply List.NoDup_incl_length; [exact Hnd|]. intros k Hk. apply Hkeys, Hk.
Qed.

Lemma orZero_number (n : float) : isNaN (ChartView.orZero n) = false.
Proof.
  unfold ChartView.orZero. destruct (truthyNum n) eqn:Ht; [|reflexivity].
  unfold truthyNum in Ht. apply negb_true_iff, orb_false_iff in Ht. apply Ht.
Qed.

Lemma processedData_map (data : list (gmap string jsvalue)) (xAxis yAxis : string) :
  ChartView.processedData data xAxis yAxis
  = map (fun item =>
           {| ChartView.x := getCell item xAxis;
              ChartView.y := ChartView.orZero (Number (getCell item yAxis)) |})
        data.
Proof.
  unfold ChartView.processedData.
  induction data as [|item data IH]; simpl; [reflexivity|].
  rewrite orZero_number. simpl. rewrite IH. reflexivity.
Qed.

(** X8: the filter of [processedData] on numeric values never removes a point:
    a value that is no number has already become 0.  The chart has a point
    for every row it is given, and SimpleChart never reports that there is
    no valid numeric data. *)
Theorem processedData_keeps_every_row (data : list (gmap string jsvalue))
    (xAxis yAxis : string) :
  length (ChartView.processedData data xAxis yAxis) = length data
  /\ Forall (fun p => isNaN (ChartView.y p) = false)
            (ChartView.processedData data xAxis yAxis)
  /\ ChartView.SimpleChart data xAxis yAxis <> ChartView.NoValidNumericData.
Proof.
  rewrite processedData_map. split; [apply List.length_map|]. split.
  - apply List.Forall_forall. intros p Hp. apply List.in_map_iff in Hp.
    destruct Hp as (item & <- & _). apply orZero_number.
  - unfold ChartView.SimpleChart. rewrite processedData_map.
    destruct data as [|item data]; simpl; [discriminate|].
    destruct (negb (nonEmpty xAxis) || negb (nonEmpty yAxis)); discriminate.
Qed.

End AggregatorMore.

(** ** What the pattern matcher returns *)

Section MatcherMore.
Variable excelData : option ExcelData.
Variable now : nat -> N.

Lemma forEachPattern_invariant (I : list FilterCondition -> Prop)
    (pats : list (list Regex.node * string)) (lowerQuery : string) :
  Forall goodPattern pats ->
  (forall operator fs m,
     In operator recognizedOperators -> I fs ->
     I (pushMatch excelData now operator fs m)) ->
  forall fs, I fs ->
    exists out, forEachPattern excelData now pats lowerQuery fs = Some out /\ I out.
Proof.
  intros Hp Hpush. induction pats as [|[regex operator] pats IH]; intros fs Hfs; simpl.
  - exists fs. auto.
  - inversion Hp as [|? ? [Hc Hop] Hp']; subst. simpl in Hc, Hop.
    destruct (execAll_total regex lowerQuery Hc) as (ms & ->).
    apply IH; [exact Hp'|]. clear IH Hp Hp'. revert fs Hfs.
    induction ms as [|m ms IHm]; intros fs Hfs; simpl; [exact Hfs|].
    apply IHm, Hpush; assumption.
Qed.

Lemma parseBasicQuery_invariant (I : list FilterCondition -> Prop) (query : string) :
  (forall operator fs m,
     In operator recognizedOperators -> I fs ->
     I (pushMatch excelData now operator fs m)) ->
  I [] ->
  exists out, parseBasicQuery excelData now query = Some out /\ I out.
Proof.
  intros Hpush Hnil. unfold parseBasicQuery.
  apply forEachPattern_invariant; [apply patterns_good | exact Hpush | exact Hnil].
Qed.

End MatcherMore.

Section MatcherColumns.

(** X9: every filter the pattern matcher returns is on a column of the table,
    by its name as the table has it, with one of the six operators. *)
Theorem parseBasicQuery_names_columns (d : ExcelData) (now : nat -> N)
    (query : string) :
  exists out,
    parseBasicQuery (Some d) now query = Some out
    /\ Forall (namesColumn d) out.
Proof.
  apply (parseBasicQuery_invariant (Some d) now (Forall (namesColumn d))).
  - intros operator fs m Hop Hfs. unfold pushMatch.
    destruct (findColumn (Some d) (fst m)) as [h|] eqn:Hfind; [|exact Hfs].
    destruct (nonEmpty h) eqn:Hh; [|exact Hfs].
    apply List.Forall_app. split; [exact Hfs|]. constructor; [|constructor].
    unfold namesColumn. simpl. split; [|split; [|exact Hop]].
    + unfold findColumn in Hfind. apply List.find_some in Hfind. apply Hfind.
    + intros ->. discriminate.
  - constructor.
Qed.

Lemma includes_empty (s : string) : JSString.includes s EmptyString = true.
Proof. destruct s; reflexivity. Qed.

(** X10: before a table is loaded, and for a table whose first column has no
    name, the pattern matcher returns no filter, whatever the query: the
    empty header is the first that every name matches, and it is dropped. *)
Theorem unnamed_first_column_blocks_matcher (rest : list string)
    (table : list (list primitive)) (now : nat -> N) (query : string) :
  parseBasicQuery (Some {| headers := EmptyString :: rest; rows := table |})
    now query = Some []
  /\ parseBasicQuery None now query = Some [].
Proof.
  split.
  - destruct (parseBasicQuery_invariant
                (Some {| headers := EmptyString :: rest; rows := table |}) now
                (fun fs => fs = []) query) as (out & Hout & ->);
      [| reflexivity | exact Hout].
    intros operator fs m _ ->. unfold pushMatch, findColumn. simpl.
    rewrite includes_empty, orb_true_r. reflexivity.
  - destruct (parseBasicQuery_invariant None now (fun fs => fs = []) query)
      as (out & Hout & ->); [| reflexivity | exact Hout].
    intros operator fs m _ ->. reflexivity.
Qed.

End MatcherColumns.

(** ** The ids of the filters *)

Section IdFacts.

Lemma digits_of_uint (d : Decimal.uint) :
  allChars JSString.isDigit (NilEmpty.string_of_uint d) = true.
Proof. induction d; simpl; try reflexivity; exact IHd. Qed.

Lemma ofN_digits (n : N) : allChars JSString.isDigit (JSString.ofN n) = true.
Proof.
  unfold JSString.ofN, NilZero.string_of_uint.
  destruct (N.to_uint n); try apply digits_of_uint. reflexivity.
Qed.

Lemma to_uint_nonnil (n : N) : N.to_uint n <> Decimal.Nil.
Proof. destruct n; simpl; [discriminate | apply DecimalPos.Unsigned.to_uint_nonnil]. Qed.

Lemma ofN_inj (n n' : N) : JSString.ofN n = JSString.ofN n' -> n = n'.
Proof.
  unfold JSString.ofN. intros H.
  apply DecimalN.Unsigned.to_uint_inj.
  apply (f_equal NilZero.uint_of_string) in H.
  rewrite !NilZero.usu in H by apply to_uint_nonnil. congruence.
Qed.

Lemma ofNat_inj (i j : nat) : JSString.ofNat i = JSString.ofNat j -> i = j.
Proof. unfold JSString.ofNat. intros H. apply ofN_inj in H. lia. Qed.

(** Two texts of digits followed by an underscore and more agree part for
    part. *)
Lemma digits_underscore_inj (a b s t : string) :
  allChars JSString.isDigit a = true ->
  allChars JSString.isDigit b = true ->
  a +:+ String "_" s = b +:+ String "_" t -> a = b /\ s = t.
Proof.
  revert b. induction a as [|c a IH]; intros b Ha Hb H.
  - destruct b as [|c' b]; simpl in H.
    + inversion H. auto.
    + inversion H; subst c'. simpl in Hb. discriminate.
  - destruct b as [|c' b]; simpl in H.
    + inversion H; subst c. simpl in Ha. discriminate.
    + inversion H; subst c'. simpl in Ha, Hb.
      apply andb_true_iff in Ha, Hb. destruct Ha as [_ Ha]. destruct Hb as [_ Hb].
      destruct (IH b Ha Hb H2) as [-> ->]. auto.
Qed.

Lemma stamp_inj (prefix : string) (t t' : N) (i j : nat) :
  prefix +:+ JSString.ofN t +:+ "_" +:+ JSString.ofNat i
  = prefix +:+ JSString.ofN t' +:+ "_" +:+ JSString.ofNat j ->
  i = j.
Proof.
  intros H. apply append_inj in H.
  apply digits_underscore_inj in H; try apply ofN_digits.
  apply ofNat_inj, H.
Qed.

Variable excelData : option ExcelData.
Variable now : nat -> N.

Lemma pushMatch_indexedIds (operator : string) (fs : list FilterCondition)
    (m : string * string) :
  indexedIds now fs -> indexedIds now (pushMatch excelData now operator fs m).
Proof.
  intros Hfs. unfold pushMatch.
  destruct (findColumn excelData (fst m)) as [h|]; [|exact Hfs].
  destruct (nonEmpty h); [|exact Hfs].
  intros i f Hi. destruct (Nat.lt_ge_cases i (length fs)) as [Hlt | Hge].
  - rewrite List.nth_error_app1 in Hi by exact Hlt. apply Hfs, Hi.
  - rewrite List.nth_error_app2 in Hi by exact Hge.
    destruct (i - length fs)%nat as [|k] eqn:Hk; simpl in Hi.
    + inversion Hi; subst f. simpl.
      assert (i = length fs) by lia. subst i. reflexivity.
    + destruct k; discriminate.
Qed.

Lemma indexedIds_NoDup (fs : list FilterCondition) :
  indexedIds now fs -> List.NoDup (map id fs).
Proof.
  intros Hfs. apply List.NoDup_nth_error. intros i j Hi Heq.
  rewrite List.length_map in Hi.
  rewrite !List.nth_error_map in Heq.
  destruct (nth_error fs i) as [f|] eqn:Hf;
    [|apply List.nth_error_None in Hf; lia].
  destruct (nth_error fs j) as [g|] eqn:Hg; [|discriminate].
  simpl in Heq. inversion Heq as [Hid].
  rewrite (Hfs _ _ Hf), (Hfs _ _ Hg) in Hid.
  apply (stamp_inj "basic_filter_") in Hid. exact Hid.
Qed.

(** X11: the filters the pattern matcher returns have pairwise distinct ids,
    even when the clock does not move: the id of each holds its position in
    the list. *)
Theorem parseBasicQuery_ids_distinct (query : string) :
  exists out,
    parseBasicQuery excelData now query = Some out
    /\ indexedIds now out
    /\ List.NoDup (map id out).
Proof.
  destruct (parseBasicQuery_invariant excelData now (indexedIds now) query)
    as (out & Hout & Hids).
  - intros operator fs m _. apply pushMatch_indexedIds.
  - intros i f Hi. destruct i; discriminate.
  - exists out. split; [exact Hout|]. split; [exact Hids|].
    apply indexedIds_NoDup, Hids.
Qed.

End IdFacts.

(** ** The filters of the analysis service *)

Section ServiceFilters.
Context `{E : ECMAScript}.
Variable now : nat -> N.

Lemma withId_valid (filter : json) (index : nat) :
  validElement filter = true ->
  withId now filter index = ret (stamped (now index) index filter).
Proof.
  unfold withId, validElement. destruct filter as [|b|n|s|elements|fields];
    try discriminate.
  intros H. apply andb_true_iff in H. destruct H as [H Hv].
  apply andb_true_iff in H. destruct H as [Hc Ho]. simpl.
  rewrite Hc, Ho. simpl.
  destruct (JSObject.lookup fields "value"); [reflexivity | discriminate].
Qed.

Lemma withId_invalid (filter : json) (index : nat) :
  validElement filter = false -> exists e, withId now filter index = inl e.
Proof.
  unfold withId, validElement. destruct filter as [|b|n|s|elements|fields];
    intros H; simpl; try (eexists; reflexivity).
  destruct (truthyJ (JSObject.lookup fields "column")); simpl in *;
    [|eexists; reflexivity].
  destruct (truthyJ (JSObject.lookup fields "operator")); simpl in *;
    [|eexists; reflexivity].
  destruct (JSObject.lookup fields "value"); [discriminate | eexists; reflexivity].
Qed.

Lemma mapWithId_valid (filters : list json) :
  forall index,
    forallb validElement filters = true ->
    mapWithId now filters index = ret (stampFrom now index filters).
Proof.
  induction filters as [|filter filters IH]; intros index H; simpl; [reflexivity|].
  simpl in H. apply andb_true_iff in H. destruct H as [Hf Hfs].
  rewrite (withId_valid _ _ Hf). simpl. rewrite (IH _ Hfs). reflexivity.
Qed.

Lemma mapWithId_invalid (filters : list json) :
  forall index,
    forallb validElement filters = false ->
    exists e, mapWithId now filters index = inl e.
Proof.
  induction filters as [|filter filters IH]; intros index H; simpl in *;
    [discriminate|].
  destruct (validElement filter) eqn:Hf; simpl in H.
  - rewrite (withId_valid _ _ Hf). simpl.
    destruct (IH (S index) H) as (e & ->). eexists. reflexivity.
  - destruct (withId_invalid _ index Hf) as (e & ->). eexists. reflexivity.
Qed.

Variable selectedProvider selectedModel : string.
Variable selectedProfile : option json.
Variable fetch : Request -> completion Response.
Variable response : Response.
Variable resultFields dataFields : list (string * json).
Variable elements : list json.

(** The service answers with a success payload whose [filters] are
    [elements]. *)
Hypothesis answers : forall request, fetch request = ret response.
Hypothesis isOk : ok response = true.
Hypothesis body : jsonBody response = ret (JObj resultFields).
Hypothesis succeeded : truthyJ (JSObject.lookup resultFields "success") = true.
Hypothesis payload : JSObject.lookup resultFields "data" = Some (JObj dataFields).
Hypothesis sent : JSObject.lookup dataFields "filters" = Some (JArr elements).

Lemma tryBlock_payload (d : ExcelData) (q : string) :
  tryBlock selectedProvider selectedModel selectedProfile fetch now d q
  = let* filtersWithIds := mapWithId now elements 0 in
    ret {| query := q;
           interpretation :=
             match JSObject.lookup dataFields "interpretation" with
             | Some i =>
                 if truthyJ (JSObject.lookup dataFields "interpretation") then i
                 else JStr "AI analysis completed"
             | None => JStr "AI analysis completed"
             end;
           filters := filtersWithIds;
           success := true;
           error := None |}.
Proof.
  unfold tryBlock. rewrite answers. simpl. rewrite isOk. simpl.
  rewrite body. simpl. rewrite succeeded. simpl. rewrite payload. simpl.
  rewrite sent. simpl. reflexivity.
Qed.

(** X12: when every filter the service sends passes the test, the result holds
    exactly these filters, in their order, each with its id replaced by
    one made from the clock and its position; the service's own ids are
    not kept. *)
Theorem service_filters_are_stamped (d : ExcelData) (q : string) :
  forallb validElement elements = true ->
  exists r,
    analyzeSearchQuery (Some d) selectedProvider selectedModel selectedProfile
      fetch now q = Some (ret r)
    /\ query r = q /\ success r = true /\ error r = None
    /\ filters r = stampFrom now 0 elements.
Proof.
  intros Hvalid. unfold analyzeSearchQuery.
  rewrite tryBlock_payload, (mapWithId_valid _ _ Hvalid). simpl.
  eexists. split; [reflexivity|]. simpl. auto.
Qed.

(** X13: when one filter the service sends fails the test, none of them is
    used: the result is the one of the pattern matcher alone. *)
Theorem invalid_filter_discards_all (d : ExcelData) (q : string) :
  forallb validElement elements = false ->
  exists r basicFilters,
    analyzeSearchQuery (Some d) selectedProvider selectedModel selectedProfile
      fetch now q = Some (ret r)
    /\ parseBasicQuery (Some d) now q = Some basicFilters
    /\ filters r = map filterObject basicFilters
    /\ success r = (0 <? length basicFilters)%nat.
Proof.
  intros Hinvalid. unfold analyzeSearchQuery.
  rewrite tryBlock_payload.
  destruct (mapWithId_invalid _ 0 Hinvalid) as (e & ->). simpl.
  unfold catchBlock.
  destruct (parseBasicQuery_total (Some d) now q) as (basicFilters & Hb & _).
  rewrite Hb. destruct basicFilters as [|f fs]; simpl.
  - eexists. exists []. repeat split.
  - eexists. exists (f :: fs). repeat split.
Qed.

End ServiceFilters.

(** ** The filter list of the FilterManager *)

Section FilterListFacts.

Lemma filter_keeps_all {A} (p : A -> bool) (l : list A) :
  (forall a, In a l -> p a = true) -> List.filter p l = l.
Proof.
  induction l as [|a l IH]; intros H; simpl; [reflexivity|].
  rewrite (H a (or_introl eq_refl)), IH; [reflexivity|].
  intros b Hb. apply H. right. exact Hb.
Qed.

(** X14: removing the filter that [addNewFilter] has just added gives the list
    without the filters of that id; it gives back the list as it was when
    the id is new to it. *)
Theorem remove_after_add (availableColumns : list string) (now : N)
    (filters : list FilterCondition) :
  FilterManager.removeFilter ("filter_" +:+ JSString.ofN now)
    (FilterManager.addNewFilter availableColumns now filters)
  = FilterManager.removeFilter ("filter_" +:+ JSString.ofN now) filters
  /\ ((forall f, In f filters -> id f <> "filter_" +:+ JSString.ofN now) ->
      FilterManager.removeFilter ("filter_" +:+ JSString.ofN now)
        (FilterManager.addNewFilter availableColumns now filters)
      = filters).
Proof.
  assert (Hfirst :
    FilterManager.removeFilter ("filter_" +:+ JSString.ofN now)
      (FilterManager.addNewFilter availableColumns now filters)
    = FilterManager.removeFilter ("filter_" +:+ JSString.ofN now) filters).
  { unfold FilterManager.addNewFilter, FilterManager.removeFilter.
    destruct availableColumns as [|first rest]; [reflexivity|].
    rewrite List.filter_app. simpl. rewrite String.eqb_refl. simpl.
    apply app_nil_r. }
  split; [exact Hfirst|]. intros Hfresh. rewrite Hfirst.
  apply filter_keeps_all. intros f Hf. apply negb_true_iff, String.eqb_neq.
  apply Hfresh, Hf.
Qed.

Lemma withField_id (f : FilterCondition) (field : filterField) (v : string) :
  field <> FieldId -> id (withField f field v) = id f.
Proof. destruct field; intros H; [congruence | reflexivity ..]. Qed.

Lemma withField_twice (f : FilterCondition) (field : filterField) (v v' : string) :
  withField (withField f field v) field v' = withField f field v'.
Proof. destruct field; reflexivity. Qed.

(** X15: an update of a field other than the id keeps the ids, their order and
    the filters of other ids, and a second update of the same field
    overrides the first. *)
Theorem updateFilter_keeps_ids (filterId : string) (field : filterField)
    (v v' : string) (filters : list FilterCondition) :
  field <> FieldId ->
  map id (FilterManager.updateFilter filterId field v filters) = map id filters
  /\ (forall i f, nth_error filters i = Some f -> id f <> filterId ->
        nth_error (FilterManager.updateFilter filterId field v filters) i = Some f)
  /\ FilterManager.updateFilter filterId field v'
       (FilterManager.updateFilter filterId field v filters)
     = FilterManager.updateFilter filterId field v' filters.
Proof.
  intros Hfield. unfold FilterManager.updateFilter. split; [|split].
  - rewrite List.map_map. apply List.map_ext. intros f.
    destruct (String.eqb (id f) filterId); [apply withField_id, Hfield | reflexivity].
  - intros i f Hi Hid. rewrite List.nth_error_map, Hi. simpl.
    apply String.eqb_neq in Hid. rewrite Hid. reflexivity.
  - rewrite List.map_map. apply List.map_ext. intros f.
    destruct (String.eqb (id f) filterId) eqn:Hid.
    + rewrite withField_id by exact Hfield. rewrite Hid. apply withField_twice.
    + rewrite Hid. reflexivity.
Qed.

Lemma sameCondition_test (f g : FilterCondition) :
  String.eqb (column f) (column g) && String.eqb (operator f) (operator g)
  && String.eqb (value f) (value g) = true <-> sameCondition f g.
Proof.
  unfold sameCondition. rewrite !andb_true_iff, !String.eqb_eq. tauto.
Qed.

(** X16: accepting a suggestion appends it to the filters under a new id, and
    takes off the suggestions every suggestion with its column, operator
    and value, whatever its id; the other suggestions stay. *)
Theorem accept_removes_suggestion (now : N) (suggestedFilter : FilterCondition)
    (filters aiSuggestedFilters : list FilterCondition) :
  let after :=
    FilterManager.acceptAISuggestion now suggestedFilter filters aiSuggestedFilters in
  (exists newFilter,
     fst after = filters ++ [newFilter]
     /\ sameCondition newFilter suggestedFilter
     /\ id newFilter = "ai_filter_" +:+ JSString.ofN now)
  /\ (forall g, In g (snd after) <->
                In g aiSuggestedFilters /\ ~ sameCondition g suggestedFilter).
Proof.
  simpl. split.
  - eexists. split; [reflexivity|]. split; [|reflexivity].
    unfold sameCondition. simpl. auto.
  - intros g. unfold handleAcceptAISuggestion. rewrite List.filter_In.
    simpl. rewrite negb_true_iff, <- not_true_iff_false.
    rewrite (sameCondition_test g
               (withField suggestedFilter FieldId ("ai_filter_" +:+ JSString.ofN now))).
    unfold sameCondition. simpl. tauto.
Qed.

End FilterListFacts.

(** ** The fields of the exported CSV *)

Section CsvFacts.

Lemma doubleQuotes_inj (s s' : string) :
  CSV.doubleQuotes s = CSV.doubleQuotes s' -> s = s'.
Proof.
  revert s'. induction s as [|c s IH]; intros s' H.
  - destruct s' as [|c' s']; [reflexivity|]. simpl in H.
    destruct (Ascii.eqb c' CSV.quote); discriminate.
  - destruct s' as [|c' s']; simpl in H.
    + destruct (Ascii.eqb c CSV.quote); discriminate.
    + destruct (Ascii.eqb c CSV.quote) eqn:Hc, (Ascii.eqb c' CSV.quote) eqn:Hc'.
      * apply Ascii.eqb_eq in Hc, Hc'. inversion H. subst. f_equal. auto.
      * inversion H as [[Hq H']]. rewrite <- Hq, Ascii.eqb_refl in Hc'. discriminate.
      * inversion H as [[Hq H']]. rewrite Hq, Ascii.eqb_refl in Hc. discriminate.
      * inversion H. f_equal. auto.
Qed.

Lemma append_inj_r (a b c : string) : a +:+ c = b +:+ c -> a = b.
Proof.
  revert b. induction a as [|x a IH]; intros b H.
  - destruct b as [|y b]; [reflexivity|].
    change (c = String y (b +:+ c)) in H.
    apply (f_equal String.length) in H. simpl in H.
    rewrite (length_append b c) in H. lia.
  - destruct b as [|y b].
    + change (String x (a +:+ c) = c) in H.
      apply (f_equal String.length) in H. simpl in H.
      rewrite (length_append a c) in H. lia.
    + change (String x (a +:+ c) = String y (b +:+ c)) in H.
      inversion H. f_equal. auto.
Qed.

Lemma includes_leading_quote (t : string) :
  JSString.includes (String CSV.quote t) CSV.quoteString = true.
Proof.
  simpl. destruct (ascii_dec CSV.quote CSV.quote) as [_|Hn]; [|congruence].
  destruct t; reflexivity.
Qed.

Lemma field_inj (s s' : string) : CSV.field s = CSV.field s' -> s = s'.
Proof.
  unfold CSV.field.
  destruct (JSString.includes s "," || JSString.includes s CSV.quoteString) eqn:Hs,
           (JSString.includes s' "," || JSString.includes s' CSV.quoteString) eqn:Hs';
    intros H.
  - change (String CSV.quote (CSV.doubleQuotes s +:+ CSV.quoteString)
            = String CSV.quote (CSV.doubleQuotes s' +:+ CSV.quoteString)) in H.
    inversion H as [H']. apply append_inj_r in H'.
    apply doubleQuotes_inj, H'.
  - subst s'. apply orb_false_iff in Hs'. destruct Hs' as [_ Hq].
    change (CSV.quoteString +:+ CSV.doubleQuotes s +:+ CSV.quoteString)
      with (String CSV.quote (CSV.doubleQuotes s +:+ CSV.quoteString)) in Hq.
    rewrite includes_leading_quote in Hq. discriminate.
  - subst s. apply orb_false_iff in Hs. destruct Hs as [_ Hq].
    change (CSV.quoteString +:+ CSV.doubleQuotes s' +:+ CSV.quoteString)
      with (String CSV.quote (CSV.doubleQuotes s' +:+ CSV.quoteString)) in Hq.
    rewrite includes_leading_quote in Hq. discriminate.
  - exact H.
Qed.

(** X17: two different string cells never get the same text in the CSV: quoting
    and doubling the quotes loses nothing. *)
Theorem csv_fields_differ (s s' : string) :
  s <> s' -> CSV.field s <> CSV.field s'.
Proof. intros Hne Heq. apply Hne, field_inj, Heq. Qed.

End CsvFacts.

(** ** The table of an upload *)

Section UploadFacts.
Context `{E : ECMAScript}.
Variable DateToString : float -> string.
Variable toLocaleDateString : float -> string.

Lemma in_split_last (h : string) (l : list string) :
  In h l -> exists pre post, l = pre ++ h :: post /\ ~ In h post.
Proof.
  induction l as [|a l IH]; intros Hin; [destruct Hin|].
  destruct (in_dec string_dec h l) as [Hl|Hl].
  - destruct (IH Hl) as (pre & post & -> & Hpost).
    exists (a :: pre), post. split; [reflexivity | exact Hpost].
  - destruct Hin as [->|Hin]; [|contradiction].
    exists [], l. split; [reflexivity | exact Hl].
Qed.

Lemma cellOrElse_text (cells : list primitive) (i : nat) :
  List.Forall (fun v => exists s, v = PStr s) cells ->
  exists s, ofPrimitive (cellOrElse (getIndex cells i) (PStr "")) = VStr s.
Proof.
  intros Hall. unfold getIndex.
  destruct (nth_in_or_default i cells PUndefined) as [Hin|Hd].
  - rewrite List.Forall_forall in Hall. destruct (Hall _ Hin) as [s Hs].
    rewrite Hs. unfold cellOrElse. destruct (truthy (ofPrimitive (PStr s)));
      simpl; eauto.
  - rewrite Hd. exists EmptyString. reflexivity.
Qed.

(** X18: after an upload every row of the grid has a string under every
    header of the table other than [__proto__], whatever the sheet held:
    numbers, dates, booleans and missing cells all arrive as text.  Under a
    header [__proto__] the row has no cell and gives [Object.prototype].
    An empty sheet gives no table. *)
Theorem uploaded_cells_are_strings (jsonData : list (list sheetCell)) :
  (jsonData = [] <->
   exists e, readTable DateToString toLocaleDateString jsonData = throw e)
  /\ forall d row h,
       readTable DateToString toLocaleDateString jsonData = ret d ->
       In row (convertToGridData d) -> In h (headers d) ->
       (h <> "__proto__" -> exists s, getCell row h = VStr s)
       /\ (h = "__proto__" -> getCell row h = VObject "[object Object]").
Proof.
  split.
  - destruct jsonData as [|first rest]; simpl.
    + split; [eauto | reflexivity].
    + split; [discriminate | intros [e He]; discriminate].
  - intros d row h Hread Hrow Hh.
    destruct jsonData as [|first rest]; [discriminate|].
    simpl in Hread. injection Hread as <-.
    unfold convertToGridData in Hrow. simpl in Hrow, Hh |- *.
    apply List.in_map_iff in Hrow. destruct Hrow as (cells & <- & Hcells).
    apply List.in_map_iff in Hcells. destruct Hcells as (line & <- & _).
    split.
    + intros Hproto.
      destruct (in_split_last _ _ Hh) as (pre & post & Hsplit & Hpost).
      rewrite (convertRow_cells_last _ _ h pre post Hsplit Hpost Hproto).
      apply cellOrElse_text. apply List.Forall_forall. intros v Hv.
      apply List.in_map_iff in Hv. destruct Hv as (cell & <- & _). eauto.
    + intros ->. rewrite convertRow_cells_absent by (right; reflexivity).
      reflexivity.
Qed.

End UploadFacts.

(** ** The further properties on the example tables *)

Section FurtherExamples.
Import Examples.
#[local] Existing Instance Reference.ES.

(** Two filters on [people], in both orders. *)
Lemma applyFilters_any_order_people :
  Permutation [condition "age" "greater" "28"; condition "name" "contains" "a"]
              [condition "name" "contains" "a"; condition "age" "greater" "28"]
  /\ applyFilters [] "" people
       (Some [condition "age" "greater" "28"; condition "name" "contains" "a"])
     = applyFilters [] "" people
         (Some [condition "name" "contains" "a"; condition "age" "greater" "28"]).
Proof.
  assert (Hp : Permutation
                 [condition "age" "greater" "28"; condition "name" "contains" "a"]
                 [condition "name" "contains" "a"; condition "age" "greater" "28"])
    by apply perm_swap.
  split; [exact Hp|].
  exact (applyFilters_any_order [] "" people _ _ Hp).
Defined.

(** A table with two columns called [name] and one called [__proto__]:
    the cell under [name] comes from the second of them, [__proto__] gives
    what every object inherits, and there is no cell under [city]. *)
Lemma convertRow_cells_duplicate :
  getCell (convertRow ["name"; "__proto__"; "name"]
                      [PStr "Ann"; PStr "40"; PStr "Lee"]) "name"
  = ofPrimitive (cellOrElse (getIndex [PStr "Ann"; PStr "40"; PStr "Lee"] 2) (PStr ""))
  /\ getCell (convertRow ["name"; "__proto__"; "name"]
                         [PStr "Ann"; PStr "40"; PStr "Lee"]) "__proto__"
     = inherited "__proto__"
  /\ getCell (convertRow ["name"; "__proto__"; "name"]
                         [PStr "Ann"; PStr "40"; PStr "Lee"]) "city"
     = VUndefined.
Proof.
  split; [|split].
  - refine (proj1 (convertRow_cells ["name"; "__proto__"; "name"]
                     [PStr "Ann"; PStr "40"; PStr "Lee"] "name")
                  ["name"; "__proto__"] [] eq_refl _ _).
    + intros H. exact H.
    + discriminate.
  - refine (proj1 (proj2 (convertRow_cells ["name"; "__proto__"; "name"]
                            [PStr "Ann"; PStr "40"; PStr "Lee"] "__proto__")) _).
    right. reflexivity.
  - refine (proj2 (proj2 (convertRow_cells ["name"; "__proto__"; "name"]
                            [PStr "Ann"; PStr "40"; PStr "Lee"] "city")) _ _).
    + simpl. intros H. repeat (destruct H as [H | H]; [discriminate H|]). exact H.
    + reflexivity.
Defined.

(** A filter on [city], which [peopleTable] has no column for. *)
Lemma unknown_column_matches_nothing_people :
  In (condition "city" "equals" "Oslo")
     [condition "age" "greater" "28"; condition "city" "equals" "Oslo"]
  /\ ~ In (column (condition "city" "equals" "Oslo")) (headers peopleTable)
  /\ prototypeMember (column (condition "city" "equals" "Oslo")) = false
  /\ handleApplyFilters (Some peopleTable) [] ""
       [condition "age" "greater" "28"; condition "city" "equals" "Oslo"]
     = Some (ret []).
Proof.
  assert (Hin : In (condition "city" "equals" "Oslo")
                   [condition "age" "greater" "28"; condition "city" "equals" "Oslo"])
    by (right; left; reflexivity).
  assert (Hno : ~ In (column (condition "city" "equals" "Oslo")) (headers peopleTable)).
  { simpl. intros H. repeat (destruct H as [H | H]; [discriminate H|]). exact H. }
  assert (Hplain : prototypeMember (column (condition "city" "equals" "Oslo"))
                   = false) by reflexivity.
  split; [exact Hin|]. split; [exact Hno|]. split; [exact Hplain|].
  exact (unknown_column_matches_nothing peopleTable [] "" _ _ Hin Hno Hplain).
Defined.

(** The groups of [sales] by region. *)
Lemma aggregate_one_row_per_group_sales :
  sales <> []
  /\ exists keys,
       List.NoDup keys
       /\ (forall k, In k keys <-> In k (map (groupKey "region") sales))
       /\ Permutation (aggregateDataForChart sales "region" "amount")
            (map (fun k => toChartRow "region" "amount"
                             (k, entryOf "region" "amount" sales k)) keys)
       /\ (length (aggregateDataForChart sales "region" "amount") <= length sales)%nat.
Proof.
  assert (Hne : sales <> []) by discriminate.
  split; [exact Hne|].
  exact (aggregate_one_row_per_group sales "region" "amount" Hne
           ltac:(discriminate) ltac:(discriminate)).
Defined.

(** The service sends one filter that passes the test. *)
Lemma service_filters_are_stamped_sales :
  forallb validElement [serviceFilter] = true
  /\ exists r,
       analyzeSearchQuery (Some salesTable) "openai" "gpt-4" None
         (answering [serviceFilter]) (fun _ => 1700000000000%N) "sales above 15000"
       = Some (ret r)
       /\ query r = "sales above 15000" /\ success r = true /\ error r = None
       /\ filters r = stampFrom (fun _ => 1700000000000%N) 0 [serviceFilter].
Proof.
  assert (Hvalid : forallb validElement [serviceFilter] = true) by reflexivity.
  split; [exact Hvalid|].
  exact (service_filters_are_stamped (fun _ => 1700000000000%N) "openai" "gpt-4" None
           (answering [serviceFilter]) _ _ _ [serviceFilter]
           (fun _ => eq_refl) eq_refl eq_refl eq_refl eq_refl eq_refl
           salesTable "sales above 15000" Hvalid).
Defined.

(** The service sends a filter that passes the test and one without a
    column. *)
Lemma invalid_filter_discards_all_sales :
  forallb validElement [serviceFilter; brokenFilter] = false
  /\ exists r basicFilters,
       analyzeSearchQuery (Some salesTable) "openai" "gpt-4" None
         (answering [serviceFilter; brokenFilter]) (fun _ => 1700000000000%N)
         "sales > 15000"
       = Some (ret r)
       /\ parseBasicQuery (Some salesTable) (fun _ => 1700000000000%N) "sales > 15000"
          = Some basicFilters
       /\ filters r = map filterObject basicFilters
       /\ success r = (0 <? length basicFilters)%nat.
Proof.
  assert (Hinvalid : forallb validElement [serviceFilter; brokenFilter] = false)
    by reflexivity.
  split; [exact Hinvalid|].
  exact (invalid_filter_discards_all (fun _ => 1700000000000%N) "openai" "gpt-4" None
           (answering [serviceFilter; brokenFilter]) _ _ _
           [serviceFilter; brokenFilter]
           (fun _ => eq_refl) eq_refl eq_refl eq_refl eq_refl eq_refl
           salesTable "sales > 15000" Hinvalid).
Defined.

(** A filter added at time 5 to a list whose only filter has another id. *)
Lemma remove_after_add_fresh :
  (forall f, In f [condition "age" "greater" "28"] ->
             id f <> "filter_" +:+ JSString.ofN 5)
  /\ FilterManager.removeFilter ("filter_" +:+ JSString.ofN 5)
       (FilterManager.addNewFilter ["name"; "age"] 5 [condition "age" "greater" "28"])
     = [condition "age" "greater" "28"].
Proof.
  assert (Hfresh : forall f, In f [condition "age" "greater" "28"] ->
                             id f <> "filter_" +:+ JSString.ofN 5).
  { intros f [<-|[]]. vm_compute. discriminate. }
  split; [exact Hfresh|].
  exact (proj2 (remove_after_add ["name"; "age"] 5 [condition "age" "greater" "28"])
           Hfresh).
Defined.

(** The value of the filter [filter_0] is edited. *)
Lemma updateFilter_keeps_ids_value :
  FieldValue <> FieldId
  /\ map id (FilterManager.updateFilter "filter_0" FieldValue "30"
               [condition "age" "greater" "28"])
     = map id [condition "age" "greater" "28"].
Proof.
  assert (Hfield : FieldValue <> FieldId) by discriminate.
  split; [exact Hfield|].
  exact (proj1 (updateFilter_keeps_ids "filter_0" FieldValue "30" "31"
                  [condition "age" "greater" "28"] Hfield)).
Defined.

(** A cell with a comma and the cell up to the comma. *)
Lemma csv_fields_differ_comma :
  "Oslo, Norway" <> "Oslo"
  /\ CSV.field "Oslo, Norway" <> CSV.field "Oslo".
Proof.
  assert (Hne : "Oslo, Norway" <> "Oslo") by discriminate.
  split; [exact Hne|].
  exact (csv_fields_differ "Oslo, Norway" "Oslo" Hne).
Defined.

(** A sheet with a header line and one line holding a text, a number and
    nothing in its third cell. *)
Lemma uploaded_cells_are_strings_sheet :
  let jsonData :=
    [ [SStr "name"; SStr " age "; SNull];
      [SStr " Ann "; SNum (numOfNat 40); SUndefined] ] in
  let d :=
    {| headers := ["name"; "age"; ""];
       rows := [ [PStr "Ann"; PStr "40"; PStr ""] ] |} in
  readTable (fun _ => "Invalid Date") (fun _ => "Invalid Date") jsonData = ret d
  /\ In (convertRow (headers d) [PStr "Ann"; PStr "40"; PStr ""])
        (convertToGridData d)
  /\ In "age" (headers d)
  /\ exists s,
       getCell (convertRow (headers d) [PStr "Ann"; PStr "40"; PStr ""]) "age"
       = VStr s.
Proof.
  assert (Hread :
    readTable (fun _ => "Invalid Date") (fun _ => "Invalid Date")
      [ [SStr "name"; SStr " age "; SNull];
        [SStr " Ann "; SNum (numOfNat 40); SUndefined] ]
    = ret {| headers := ["name"; "age"; ""];
             rows := [ [PStr "Ann"; PStr "40"; PStr ""] ] |})
    by (vm_compute; reflexivity).
  assert (Hrow :
    In (convertRow ["name"; "age"; ""] [PStr "Ann"; PStr "40"; PStr ""])
       (convertToGridData {| headers := ["name"; "age"; ""];
                             rows := [ [PStr "Ann"; PStr "40"; PStr ""] ] |}))
    by (left; reflexivity).
  assert (Hh : In "age" ["name"; "age"; ""]) by (right; left; reflexivity).
  split; [exact Hread|]. split; [exact Hrow|]. split; [exact Hh|].
  refine (proj1 (proj2 (uploaded_cells_are_strings (fun _ => "Invalid Date")
                          (fun _ => "Invalid Date") _) _ _ "age" Hread Hrow Hh) _).
  discriminate.
Defined.

End FurtherExamples.
